(** * stocks-monitoring: the fetch-and-clean pipeline of [etl_scripts/procedures.py]

    A shallow embedding of [fetch_daily_stock_articles] and
    [cleaning_fetched_articles].  pandas frames are heap objects: a Python
    variable holds a reference, [df.copy()], [df[mask]], [df.rename(...)] and
    [df[[...]]] allocate a new frame, and [df[c] = ...] updates the frame the
    variable refers to in place.  The three libraries the script calls
    (GNews, newspaper, [pd.to_datetime]) are parameters of the sections that
    use them. *)

From Stdlib Require Import Ascii String.
From stdpp Require Import base option list strings gmap fin_maps.

#[local] Set Warnings "-clear-no-such-hyp".

Open Scope string_scope.
Open Scope list_scope.

(** ** Cell values *)

Record Date := mkDate { year : nat; month : nat; day : nat }.

(** A parsed [pd.Timestamp]: its calendar date and its time of day. *)
Record Timestamp := mkTimestamp {
  ts_date : Date; ts_hour : nat; ts_minute : nat; ts_second : nat }.

(** What a cell of a frame (or an element of a Python list) holds here:
    [str], [None], the float [nan] pandas puts where a value is missing, the
    [dict] GNews gives for a publisher (string keys, string values), a
    [Timestamp], [NaT] and a [datetime.date]. *)
Inductive value :=
| VStr (s : string)
| VNone
| VNaN
| VDict (d : gmap string string)
| VTimestamp (ts : Timestamp)
| VNaT
| VDate (d : Date).

(** ** Exceptions and results *)

Inductive exn :=
| KeyError (keys : list string)
| TypeError
| ValueError
| AttributeError
| LibraryError (msg : string)
| InvalidReference.
(* [InvalidReference] is no Python exception: it is what reading a location
   that holds no object gives in this model.  No run that starts with its
   argument allocated reaches it. *)

Inductive Result (A : Type) :=
| Ok (a : A)
| Err (e : exn).
Arguments Ok {A} a.
Arguments Err {A} e.

Definition is_Err {A} (r : Result A) : Prop :=
  match r with Ok _ => False | Err _ => True end.

#[global] Instance Result_ret : MRet Result := λ A a, Ok a.
#[global] Instance Result_bind : MBind Result := λ A B f r,
  match r with Ok a => f a | Err e => Err e end.

(** [[f(x) for x in xs]], stopping at the first exception. *)
Fixpoint traverse {A B} (f : A → Result B) (xs : list A) : Result (list B) :=
  match xs with
  | [] => Ok []
  | x :: xs => y ← f x; ys ← traverse f xs; Ok (y :: ys)
  end.

(** ** Strings *)

Definition LF : ascii := "010"%char.
Definition CR : ascii := "013"%char.
Definition backslash : ascii := "\"%char.

(** [pat in s]: some suffix of [s] starts with [pat]. *)
Fixpoint contains (pat s : string) : bool :=
  String.prefix pat s ||
  match s with
  | EmptyString => false
  | String _ s' => contains pat s'
  end.

(** [re.sub(c, repl, s)] for a pattern that matches the one character [c]. *)
Fixpoint re_sub (c : ascii) (repl : string) (s : string) : string :=
  match s with
  | EmptyString => EmptyString
  | String a s' =>
      if decide (a = c) then (repl ++ re_sub c repl s')%string
      else String a (re_sub c repl s')
  end.

(** [c in s] for a character. *)
Fixpoint has_char (c : ascii) (s : string) : bool :=
  match s with
  | EmptyString => false
  | String a s' => bool_decide (a = c) || has_char c s'
  end.

(** ** Series and frames *)

(** A row label of the index (a [RangeIndex] position, kept by filtering). *)
Definition label := nat.

(** A [Series]: index labels with their values. *)
Abbreviation Series := (list (label * value)).

(** A [DataFrame]: the column labels in order, and the rows in order, each
    with its index label and its cells by column label.  A cell the row does
    not store reads as [nan], which is what [pd.DataFrame(records)] puts
    where a record lacks a key.  Cells are stored by label, so the model is
    exact on frames whose column labels are pairwise distinct. *)
Record DataFrame := mkDF {
  df_columns : list string;
  df_rows : list (label * gmap string value) }.

Definition cell (r : gmap string value) (c : string) : value :=
  default VNaN (r !! c).

Definition nrows (t : DataFrame) : nat := length (df_rows t).

Definition index (t : DataFrame) : list label := (df_rows t).*1.

(** The values under label [c], row by row. *)
Definition column (t : DataFrame) (c : string) : Series :=
  (λ ir, (ir.1, cell ir.2 c)) <$> df_rows t.

Definition occurrences (c : string) (cols : list string) : nat :=
  length (filter (λ x, x = c) cols).

(** [df[c]].  A label that is absent raises [KeyError].  A label carried by
    more than one column selects a frame, not a Series; the script only has
    such a selection after [rename] has merged two labels into
    "published_time", where it is handed to [pd.to_datetime], which rejects a
    frame without year, month and day columns with [ValueError]. *)
Definition frame_getitem (t : DataFrame) (c : string) : Result Series :=
  match occurrences c (df_columns t) with
  | 0 => Err (KeyError [c])
  | 1 => Ok (column t c)
  | _ => Err ValueError
  end.

(** Rows kept by a boolean mask, by position. *)
Fixpoint select {A} (rows : list A) (mask : list bool) : list A :=
  match rows, mask with
  | r :: rows, b :: mask => if b then r :: select rows mask else select rows mask
  | _, _ => []
  end.

(** [df[mask]] for a boolean Series that carries the frame's own index (the
    script builds it from a column of the same frame), so that the selection
    is positional. *)
Definition frame_mask (t : DataFrame) (mask : list (label * bool)) : DataFrame :=
  mkDF (df_columns t) (select (df_rows t) mask.*2).

(** Writing values down a column, by position; a row past the end of the
    values gets [nan]. *)
Fixpoint set_column (c : string) (rows : list (label * gmap string value))
    (vals : list value) : list (label * gmap string value) :=
  match rows with
  | [] => []
  | (i, r) :: rows =>
      match vals with
      | v :: vals => (i, <[c := v]> r) :: set_column c rows vals
      | [] => (i, <[c := VNaN]> r) :: set_column c rows []
      end
  end.

Definition add_label (c : string) (cols : list string) : list string :=
  if decide (c ∈ cols) then cols else cols ++ [c].

(** [df[c] = s] for a Series [s] that carries the frame's own index (every
    Series the script assigns is computed from a column of the same frame),
    so that pandas assigns by position.  A new label goes last. *)
Definition frame_setitem (t : DataFrame) (c : string) (s : Series) : DataFrame :=
  mkDF (add_label c (df_columns t)) (set_column c (df_rows t) s.*2).

(** [df[c] = values] for a Python list: [ValueError] unless there is one value
    per row. *)
Definition frame_setitem_list (t : DataFrame) (c : string) (vals : list value)
    : Result DataFrame :=
  if decide (length vals = nrows t)
  then Ok (mkDF (add_label c (df_columns t)) (set_column c (df_rows t) vals))
  else Err ValueError.

(** [df[c] = v] for a scalar: the value in every row. *)
Definition frame_setitem_scalar (t : DataFrame) (c : string) (v : value) : DataFrame :=
  mkDF (add_label c (df_columns t))
       ((λ ir, (ir.1, <[c := v]> ir.2)) <$> df_rows t).

(** [df.rename(columns={old: new})]: a frame without the label [old] is
    returned as it is (pandas ignores a label it does not find). *)
Definition frame_rename (t : DataFrame) (old new : string) : DataFrame :=
  if decide (old ∈ df_columns t)
  then mkDF ((λ c, if decide (c = old) then new else c) <$> df_columns t)
            ((λ ir, (ir.1, <[new := cell ir.2 old]> (delete old ir.2))) <$> df_rows t)
  else t.

(** [df[[c1, ..., cn]]]: [KeyError] with the labels that are absent;
    otherwise, for each requested label in turn, the columns that carry it. *)
Definition frame_project (t : DataFrame) (cols : list string) : Result DataFrame :=
  match filter (λ c, c ∉ df_columns t) cols with
  | [] => Ok (mkDF (c ← cols; filter (λ x, x = c) (df_columns t))
                   ((λ ir, (ir.1, filter (λ kv, kv.1 ∈ cols) ir.2)) <$> df_rows t))
  | missing => Err (KeyError missing)
  end.

(** ** Series operations *)

(** [s.str.contains(pat)] for a pattern without regex metacharacters: a plain
    substring test on a [str], [nan] (here [None]) on anything else. *)
Definition str_contains (pat : string) (s : Series) : list (label * option bool) :=
  (λ iv, (iv.1, match iv.2 with VStr x => Some (contains pat x) | _ => None end)) <$> s.

(** [~s]: negation of a boolean Series; [TypeError] as soon as an element is
    [nan] rather than a boolean. *)
Definition series_invert (s : list (label * option bool)) : Result (list (label * bool)) :=
  traverse (λ ib, match ib.2 with Some b => Ok (ib.1, negb b) | None => Err TypeError end) s.

(** [s.replace(pat, repl, regex=True)] for a pattern that matches the one
    character [c]: substitution in every [str], other values untouched. *)
Definition series_replace (c : ascii) (repl : string) (s : Series) : Series :=
  (λ iv, (iv.1, match iv.2 with VStr x => VStr (re_sub c repl x) | v => v end)) <$> s.

(** [x[key]]: defined on a [dict] that has the key. *)
Definition subscript (key : string) (x : value) : Result value :=
  match x with
  | VDict d => match d !! key with Some s => Ok (VStr s) | None => Err (KeyError [key]) end
  | _ => Err TypeError
  end.

(** [s.apply(f)]. *)
Definition series_apply (f : value → Result value) (s : Series) : Result Series :=
  traverse (λ iv, v ← f iv.2; Ok (iv.1, v)) s.

(** The [date()] of a datetime-like value; [NaT] stays [NaT]. *)
Definition date_of (v : value) : Result value :=
  match v with
  | VTimestamp ts => Ok (VDate (ts_date ts))
  | VNaT => Ok VNaT
  | _ => Err AttributeError
  end.

(** [s.dt.date]: [AttributeError] unless the values are datetime-like. *)
Definition dt_date (s : Series) : Result Series :=
  traverse (λ iv, d ← date_of iv.2; Ok (iv.1, d)) s.

(** ** The interpreter state: frames on the heap, and what the script does to
    the outside (lines printed, seconds slept) *)

Definition loc := nat.

Inductive event :=
| Print (line : string)
| Sleep (seconds : nat).

Record state := mkState {
  heap : list DataFrame;
  trace : list event }.

(** A statement: it runs from a state and ends in a state, with a value or a
    raised exception.  The state at the point of the raise is kept. *)
Definition M (A : Type) : Type := state → state * Result A.

#[global] Instance M_ret : MRet M := λ A a σ, (σ, Ok a).
#[global] Instance M_bind : MBind M := λ A B f m σ,
  match m σ with
  | (σ', Ok a) => f a σ'
  | (σ', Err e) => (σ', Err e)
  end.

(** A pure library call that may raise. *)
Definition lift {A} (r : Result A) : M A := λ σ, (σ, r).

(** A new object; the reference to it is returned. *)
Definition new (t : DataFrame) : M loc := λ σ,
  (mkState (heap σ ++ [t]) (trace σ), Ok (length (heap σ))).

Definition deref (l : loc) : M DataFrame := λ σ,
  match heap σ !! l with
  | Some t => (σ, Ok t)
  | None => (σ, Err InvalidReference)
  end.

(** In-place update of the object behind a reference. *)
Definition update (l : loc) (t : DataFrame) : M unit := λ σ,
  (mkState (<[l := t]> (heap σ)) (trace σ), Ok tt).

Definition emit (e : event) : M unit := λ σ,
  (mkState (heap σ) (trace σ ++ [e]), Ok tt).

(** The frame methods, on references. *)
Definition copy (df : loc) : M loc := t ← deref df; new t.

Definition getitem (df : loc) (c : string) : M Series :=
  t ← deref df; lift (frame_getitem t c).

Definition getitem_mask (df : loc) (mask : list (label * bool)) : M loc :=
  t ← deref df; new (frame_mask t mask).

Definition getitem_list (df : loc) (cols : list string) : M loc :=
  t ← deref df; t' ← lift (frame_project t cols); new t'.

Definition setitem (df : loc) (c : string) (s : Series) : M unit :=
  t ← deref df; update df (frame_setitem t c s).

Definition setitem_list (df : loc) (c : string) (vals : list value) : M unit :=
  t ← deref df; t' ← lift (frame_setitem_list t c vals); update df t'.

Definition setitem_scalar (df : loc) (c : string) (v : value) : M unit :=
  t ← deref df; update df (frame_setitem_scalar t c v).

Definition rename (df : loc) (old new_label : string) : M loc :=
  t ← deref df; new (frame_rename t old new_label).

(** ** The Cleaner *)

Definition failure_marker : string := "Error when downloading and parsing article".

Definition cleaned_columns : list string :=
  ["entity"; "source_publisher"; "title"; "full_text"; "url";
   "published_time"; "published_date"; "image_url"].

Section Cleaner.

(** [pd.to_datetime] on a Series: the parsed Series, or the exception pandas
    raises on a value it cannot parse. *)
Variable to_datetime : Series → Result Series.

Definition cleaning_fetched_articles (df : loc) : M loc :=
  (* Copy from the original dataframe *)
  fetched_news_df ← copy df;
  (* Exclude the rows that contain error messages *)
  full_text ← getitem fetched_news_df "full_text";
  keep ← lift (series_invert (str_contains failure_marker full_text));
  fetched_news_df ← getitem_mask fetched_news_df keep;
  (* Clean the full text column *)
  full_text ← getitem fetched_news_df "full_text";
  setitem fetched_news_df "full_text" (series_replace LF "||" full_text);;
  full_text ← getitem fetched_news_df "full_text";
  setitem fetched_news_df "full_text" (series_replace CR "||" full_text);;
  full_text ← getitem fetched_news_df "full_text";
  setitem fetched_news_df "full_text" (series_replace backslash "" full_text);;
  (* Rename the columns, extract publisher and published date *)
  fetched_news_df ← rename fetched_news_df "published date" "published_time";
  publisher ← getitem fetched_news_df "publisher";
  names ← lift (series_apply (subscript "title") publisher);
  setitem fetched_news_df "source_publisher" names;;
  published_time ← getitem fetched_news_df "published_time";
  parsed ← lift (to_datetime published_time);
  setitem fetched_news_df "published_time" parsed;;
  published_time ← getitem fetched_news_df "published_time";
  dates ← lift (dt_date published_time);
  setitem fetched_news_df "published_date" dates;;
  (* Reorder the columns *)
  getitem_list fetched_news_df cleaned_columns.

(** The frame the Cleaner computes from the frame it is given, with the
    heap left out: the same calls in the same order on frame values.
    [cleaning_fetched_articles_run] below proves that this is what the
    program returns. *)
Definition clean_text (t : DataFrame) (c : ascii) (repl : string) : Result DataFrame :=
  full_text ← frame_getitem t "full_text";
  Ok (frame_setitem t "full_text" (series_replace c repl full_text)).

Definition clean_filter (t : DataFrame) : Result DataFrame :=
  full_text ← frame_getitem t "full_text";
  keep ← series_invert (str_contains failure_marker full_text);
  Ok (frame_mask t keep).

Definition clean_publisher (t : DataFrame) : Result DataFrame :=
  publisher ← frame_getitem t "publisher";
  names ← series_apply (subscript "title") publisher;
  Ok (frame_setitem t "source_publisher" names).

Definition clean_time (t : DataFrame) : Result DataFrame :=
  published_time ← frame_getitem t "published_time";
  parsed ← to_datetime published_time;
  Ok (frame_setitem t "published_time" parsed).

Definition clean_date (t : DataFrame) : Result DataFrame :=
  published_time ← frame_getitem t "published_time";
  dates ← dt_date published_time;
  Ok (frame_setitem t "published_date" dates).

Definition cleaned (t : DataFrame) : Result DataFrame :=
  t ← clean_filter t;
  t ← clean_text t LF "||";
  t ← clean_text t CR "||";
  t ← clean_text t backslash "";
  t ← clean_publisher (frame_rename t "published date" "published_time");
  t ← clean_time t;
  t ← clean_date t;
  frame_project t cleaned_columns.

End Cleaner.

(** ** The Fetcher *)

(** What [GNews.get_news] returns for one article. *)
Record Publisher := mkPublisher { href : string; name : string }.

Record NewsItem := mkNewsItem {
  item_title : string;
  item_description : string;
  item_published_date : string;
  item_url : string;
  item_publisher : Publisher }.

(** The dict GNews builds for an article, keys in its order. *)
Definition record (it : NewsItem) : list (string * value) :=
  [("title", VStr (item_title it));
   ("description", VStr (item_description it));
   ("published date", VStr (item_published_date it));
   ("url", VStr (item_url it));
   ("publisher", VDict {[ "href" := href (item_publisher it);
                          "title" := name (item_publisher it) ]})].

(** [pd.DataFrame(records)] for a list of dicts: the column labels are the
    keys in order of first appearance, the index is [0 .. n-1].  No record
    gives no column. *)
Definition pd_DataFrame (records : list (list (string * value))) : DataFrame :=
  mkDF (foldl (λ cols k, add_label k cols) [] (records ≫= λ r, r.*1))
       (imap (λ i r, (i, list_to_map r)) records).

(** The [GNews] client object, as the script configures it. *)
Record GNews := mkGNews {
  language : string;
  country : string;
  max_results : Z;
  start_date : option Date;
  end_date : option Date }.

(** What [article.download(); article.parse()] comes to: the text and the
    images of the page, or an exception with its message. *)
Inductive ArticleOutcome :=
| Parsed (text : string) (images : list string)
| Failed (e : string).

(** [Article(url)]: newspaper takes the url apart with [urlparse], which
    raises on anything but a string. *)
Definition Article (url : value) : Result string :=
  match url with
  | VStr u => Ok u
  | _ => Err TypeError
  end.

Definition placeholder (url e : string) : string :=
  ("Error when downloading and parsing article from " ++ url ++ ": " ++ e)%string.

Section Fetcher.

(** [datetime.date.today()] and [date - timedelta(days=n)]. *)
Variable today : Date.
Variable minus_days : Date → Z → Date.
(** [google_news.get_news(query)]: the search results, or the exception of a
    search that fails as a whole. *)
Variable get_news : GNews → string → Result (list NewsItem).
(** newspaper, on a url. *)
Variable download_parse : string → ArticleOutcome.

(** The loop over the urls, with the two lists it appends to. *)
Fixpoint fetch_articles (urls : list value) (full_texts image_urls : list value)
    : M (list value * list value) :=
  match urls with
  | [] => mret (full_texts, image_urls)
  | url :: urls =>
      (* Download and parse the article *)
      article ← lift (Article url);
      '(full_texts, image_urls) ←
        match download_parse article with
        | Parsed text images =>
            (* the full text, and the first image if there is one *)
            mret (full_texts ++ [VStr text],
                  image_urls ++ [match images with
                                 | image :: _ => VStr image
                                 | [] => VNone
                                 end])
        | Failed e =>
            emit (Print (placeholder article e));;
            (* placeholder values for the article and image *)
            mret (full_texts ++ [VStr (placeholder article e)],
                  image_urls ++ [VStr (placeholder article e)])
        end;
      (* Sleep to avoid getting blocked *)
      emit (Sleep 10);;
      fetch_articles urls full_texts image_urls
  end.

Definition fetch_daily_stock_articles (stock_code : string) (n_days max_articles : Z)
    : M loc :=
  (* Initialize GNews *)
  let google_news := mkGNews "id" "Indonesia" max_articles None None in
  (* the current date and the start date *)
  let google_news :=
    mkGNews (language google_news) (country google_news) (max_results google_news)
            (Some (minus_days today n_days)) (Some today) in
  (* Fetch the news articles from Google News *)
  news_items ← lift (get_news google_news stock_code);
  fetched_news_df ← new (pd_DataFrame (record <$> news_items));
  (* Iterate through each URL in the fetched news DataFrame *)
  urls ← getitem fetched_news_df "url";
  '(full_texts, image_urls) ← fetch_articles urls.*2 [] [];
  (* Add the article full text and image URL to the DataFrame *)
  setitem_list fetched_news_df "full_text" full_texts;;
  setitem_list fetched_news_df "image_url" image_urls;;
  (* Add the entity to the DataFrame *)
  setitem_scalar fetched_news_df "entity" (VStr stock_code);;
  mret fetched_news_df.

End Fetcher.

(** ** A [to_datetime] for the dates GNews emits

    GNews gives published dates in the RFC 1123 form of RSS feeds,
    [Mon, 03 Jul 2023 07:00:00 GMT].  This parser accepts that form only; it
    is the parameter the sample runs below are made with. *)

Definition digit (a : ascii) : option nat :=
  let n := nat_of_ascii a in
  if ((48 <=? n) && (n <=? 57))%nat then Some (n - 48) else None.

Fixpoint number_from (acc : nat) (s : string) : option nat :=
  match s with
  | EmptyString => Some acc
  | String a s' => d ← digit a; number_from (10 * acc + d) s'
  end.

Definition number (s : string) : option nat :=
  match s with
  | EmptyString => None
  | _ => number_from 0 s
  end.

Definition month_names : list string :=
  ["Jan"; "Feb"; "Mar"; "Apr"; "May"; "Jun";
   "Jul"; "Aug"; "Sep"; "Oct"; "Nov"; "Dec"].

Definition month_number (s : string) : option nat :=
  S <$> list_find (λ m, m = s) month_names ≫= λ im, Some im.1.

Definition parse_rfc1123 (s : string) : option Timestamp :=
  if bool_decide (String.length s = 29 ∧ substring 3 2 s = ", " ∧
                  substring 7 1 s = " " ∧ substring 11 1 s = " " ∧
                  substring 16 1 s = " " ∧ substring 19 1 s = ":" ∧
                  substring 22 1 s = ":" ∧ substring 25 4 s = " GMT")
  then
    d ← number (substring 5 2 s);
    m ← month_number (substring 8 3 s);
    y ← number (substring 12 4 s);
    h ← number (substring 17 2 s);
    mi ← number (substring 20 2 s);
    se ← number (substring 23 2 s);
    if bool_decide ((1 ≤ d ≤ 31)%nat ∧ (h < 24)%nat ∧ (mi < 60)%nat ∧ (se < 60)%nat)
    then Some (mkTimestamp (mkDate y m d) h mi se)
    else None
  else None.

Definition to_datetime_rfc1123 (s : Series) : Result Series :=
  traverse (λ iv,
    match iv.2 with
    | VStr x =>
        match parse_rfc1123 x with
        | Some ts => Ok (iv.1, VTimestamp ts)
        | None => Err ValueError
        end
    | VTimestamp ts => Ok (iv.1, VTimestamp ts)
    | VNone | VNaN | VNaT => Ok (iv.1, VNaT)
    | _ => Err TypeError
    end) s.

(** * Vocabulary of the specification *)

(** A statement returns a reference to the frame [t']. *)
Definition returns (m : M loc) (σ : state) (t' : DataFrame) : Prop :=
  ∃ σ' l, m σ = (σ', Ok l) ∧ heap σ' !! l = Some t'.

(** A statement raises: it ends with an exception and returns nothing. *)
Definition raises {A} (m : M A) (σ : state) : Prop :=
  ∃ σ' e, m σ = (σ', Err e).

Definition is_str (v : value) : Prop := ∃ s, v = VStr s.

(** The cell holds a text with the failure marker in it. *)
Definition is_failure (v : value) : bool :=
  match v with
  | VStr s => contains failure_marker s
  | _ => false
  end.

Definition rows_column (rows : list (label * gmap string value)) (c : string) : Series :=
  (λ ir, (ir.1, cell ir.2 c)) <$> rows.

(** The rows of a raw table whose full_text carries the marker, and the
    others. *)
Definition failed_rows (t : DataFrame) : list (label * gmap string value) :=
  filter (λ ir, is_failure (cell ir.2 "full_text") = true) (df_rows t).

Definition survivors (t : DataFrame) : list (label * gmap string value) :=
  filter (λ ir, is_failure (cell ir.2 "full_text") = false) (df_rows t).

(** What the spec says of a text: each line feed and each carriage return
    becomes "||", each backslash goes, everything else stays. *)
Definition normal_char (a : ascii) : string :=
  if decide (a = LF ∨ a = CR) then "||"
  else if decide (a = backslash) then ""
  else String a "".

Fixpoint normalized (s : string) : string :=
  match s with
  | EmptyString => EmptyString
  | String a s' => (normal_char a ++ normalized s')%string
  end.

Definition normalized_cell (v : value) : value :=
  match v with
  | VStr s => VStr (normalized s)
  | v => v
  end.

(** The label under which a raw table carries the published time once the
    Cleaner has renamed its columns. *)
Definition published_label (t : DataFrame) : string :=
  if decide ("published date" ∈ df_columns t) then "published date"
  else "published_time".

(** The display name of a publisher structure, when there is one. *)
Definition publisher_name (v : value) : option string :=
  match v with
  | VDict d => d !! "title"
  | _ => None
  end.

(** A table already in the cleaned shape: the eight cleaned columns, and in
    every row a full_text without the failure marker and without line feed,
    carriage return or backslash. *)
Definition cleaned_shape (t : DataFrame) : Prop :=
  df_columns t = cleaned_columns ∧
  Forall (λ ir, ∃ s, cell ir.2 "full_text" = VStr s ∧
                     contains failure_marker s = false ∧
                     has_char LF s = false ∧ has_char CR s = false ∧
                     has_char backslash s = false) (df_rows t).

(** What the Fetcher records for the article at a url: the pair of its
    full_text and image_url cells, and what the loop prints and sleeps. *)
Definition article_cells (download_parse : string → ArticleOutcome) (u : string)
    : value * value :=
  match download_parse u with
  | Parsed text images =>
      (VStr text, match images with image :: _ => VStr image | [] => VNone end)
  | Failed e => (VStr (placeholder u e), VStr (placeholder u e))
  end.

Definition article_events (download_parse : string → ArticleOutcome) (u : string)
    : list event :=
  match download_parse u with
  | Parsed _ _ => [Sleep 10]
  | Failed e => [Print (placeholder u e); Sleep 10]
  end.

(** The table the spec promises for a sequence of search results: one row
    per result, in order, under the index 0, 1, ...; the columns of the
    result, then full_text, image_url and entity. *)
Definition search_columns : list string :=
  ["title"; "description"; "published date"; "url"; "publisher"].

Definition fetched_row (download_parse : string → ArticleOutcome)
    (stock_code : string) (it : NewsItem) : gmap string value :=
  <["entity" := VStr stock_code]>
    (<["image_url" := (article_cells download_parse (item_url it)).2]>
      (<["full_text" := (article_cells download_parse (item_url it)).1]>
        (list_to_map (record it)))).

Definition fetched_table (download_parse : string → ArticleOutcome)
    (stock_code : string) (items : list NewsItem) : DataFrame :=
  mkDF (search_columns ++ ["full_text"; "image_url"; "entity"])
       (imap (λ i it, (i, fetched_row download_parse stock_code it)) items).

(** The client object at the time of the search. *)
Definition google_news (today : Date) (minus_days : Date → Z → Date)
    (n_days max_articles : Z) : GNews :=
  mkGNews "id" "Indonesia" max_articles (Some (minus_days today n_days)) (Some today).

(** A value [pd.to_datetime] leaves in a column: a timestamp or [NaT]. *)
Definition datetime_like (v : value) : Prop :=
  match v with
  | VTimestamp _ | VNaT => True
  | _ => False
  end.

(** The labels of the frame just before the final projection. *)
Definition working_columns (t : DataFrame) : list string :=
  add_label "published_date"
    (add_label "published_time"
      (add_label "source_publisher"
        ((λ c, if decide (c = "published date") then "published_time" else c)
           <$> df_columns t))).

(** * Sample tables

    The scenario of the spec: three search results for BBCA, the second of
    which could not be downloaded. *)

Definition kompas : value :=
  VDict {[ "title" := "Kompas"; "href" := "https://kompas.com" ]}.

Definition raw_row (title url full_text : string) (image_url : value)
    : gmap string value :=
  list_to_map
    [("title", VStr title); ("description", VStr "BBCA");
     ("published date", VStr "Mon, 03 Jul 2023 07:00:00 GMT");
     ("url", VStr url); ("publisher", kompas);
     ("full_text", VStr full_text); ("image_url", image_url);
     ("entity", VStr "BBCA")].

Definition raw_columns : list string :=
  ["title"; "description"; "published date"; "url"; "publisher";
   "full_text"; "image_url"; "entity"].

Definition raw_sample : DataFrame :=
  mkDF raw_columns
    [(0, raw_row "Laba BBCA naik" "http://a"
           ("line1" ++ String LF "line2" ++ String CR (String LF ""))
           (VStr "http://a/1.png"));
     (1, raw_row "Saham BBCA" "http://x"
           "Error when downloading and parsing article from http://x: timeout"
           (VStr "Error when downloading and parsing article from http://x: timeout"));
     (2, raw_row "BBCA hari ini" "http://c" "a\b" VNone)].

Definition cleaned_row (title url full_text : string) (image_url : value)
    : gmap string value :=
  list_to_map
    [("entity", VStr "BBCA"); ("source_publisher", VStr "Kompas");
     ("title", VStr title); ("full_text", VStr full_text); ("url", VStr url);
     ("published_time", VTimestamp (mkTimestamp (mkDate 2023 7 3) 7 0 0));
     ("published_date", VDate (mkDate 2023 7 3));
     ("image_url", image_url)].

Definition cleaned_sample : DataFrame :=
  mkDF cleaned_columns
    [(0, cleaned_row "Laba BBCA naik" "http://a" "line1||line2||||"
           (VStr "http://a/1.png"));
     (2, cleaned_row "BBCA hari ini" "http://c" "ab" VNone)].

(** The raw table with a row whose publisher is missing, and with a row whose
    published date is not a date. *)
Definition raw_without_publisher : DataFrame :=
  mkDF raw_columns
    [(0, <["publisher" := VNone]> (raw_row "Laba BBCA naik" "http://a" "text" VNone))].

Definition raw_with_bad_date : DataFrame :=
  mkDF raw_columns
    [(0, <["published date" := VStr "yesterday"]>
           (raw_row "Laba BBCA naik" "http://a" "text" VNone))].

(** The raw table with a second column that carries the label title (as a
    frame put together with [pd.concat(..., axis=1)] can have). *)
Definition raw_title_twice : DataFrame :=
  mkDF (raw_columns ++ ["title"]) (df_rows raw_sample).

(** Search results and pages for the Fetcher: three results, the page of the
    second cannot be downloaded. *)
Definition sample_item (title url : string) : NewsItem :=
  mkNewsItem title "BBCA" "Mon, 03 Jul 2023 07:00:00 GMT" url
             (mkPublisher "https://kompas.com" "Kompas").

Definition sample_items : list NewsItem :=
  [sample_item "Laba BBCA naik" "http://a";
   sample_item "Saham BBCA" "http://x";
   sample_item "BBCA hari ini" "http://c"].

Definition sample_search (g : GNews) (query : string) : Result (list NewsItem) :=
  if decide (query = "BBCA") then Ok sample_items else Ok [].

Definition sample_pages (u : string) : ArticleOutcome :=
  if decide (u = "http://x") then Failed "timeout"
  else Parsed ("text of " ++ u) [(u ++ "/1.png")%string].

Definition sample_today : Date := mkDate 2023 7 4.

Definition sample_minus_days (d : Date) (n : Z) : Date :=
  mkDate (year d) (month d) (day d - Z.to_nat n).

(** * The script

    The module ends with a run of the two functions on BBCA: fetch, clean,
    and print the cleaned table.  [DataFrame.__str__], the text pandas prints
    for a frame, is a parameter. *)

Section Script.
Variable today : Date.
Variable minus_days : Date → Z → Date.
Variable get_news : GNews → string → Result (list NewsItem).
Variable download_parse : string → ArticleOutcome.
Variable to_datetime : Series → Result Series.
Variable to_string : DataFrame → string.

(** The Cleaner on what the Fetcher returns. *)
Definition fetch_and_clean (stock_code : string) (n_days max_articles : Z) : M loc :=
  df ← fetch_daily_stock_articles today minus_days get_news download_parse
         stock_code n_days max_articles;
  cleaning_fetched_articles to_datetime df.

Definition script : M unit :=
  (* test call the functions *)
  bbca_df ← fetch_daily_stock_articles today minus_days get_news download_parse
              "BBCA" 3 5;
  bbca_df_2 ← cleaning_fetched_articles to_datetime bbca_df;
  t ← deref bbca_df_2;
  emit (Print (to_string t)).

End Script.

(** * More vocabulary: effects, and the articles that survive *)

(** The seconds a trace sleeps, and the lines it prints. *)
Definition slept (tr : list event) : nat :=
  foldr (λ e n, match e with Sleep s => s + n | Print _ => n end) 0 tr.

Definition printed (tr : list event) : list string :=
  tr ≫= λ e, match e with Print line => [line] | Sleep _ => [] end.

(** The article of a search result was downloaded and parsed, and its text
    does not contain the failure marker. *)
Definition article_kept (download_parse : string → ArticleOutcome) (it : NewsItem)
    : bool :=
  match download_parse (item_url it) with
  | Parsed text _ => negb (contains failure_marker text)
  | Failed _ => false
  end.

(** The placeholders of the articles that failed, in order. *)
Definition failure_lines (download_parse : string → ArticleOutcome)
    (items : list NewsItem) : list string :=
  items ≫= λ it,
    match download_parse (item_url it) with
    | Parsed _ _ => []
    | Failed e => [placeholder (item_url it) e]
    end.

(** The columns a raw table must have for the Cleaner, besides the published
    time. *)
Definition required_columns : list string :=
  ["full_text"; "publisher"; "entity"; "title"; "url"; "image_url"].

(** More samples: a search that fails as a whole, a raw table in which every
    download failed, a raw table with a full_text that is no text, a raw
    table without the url column, and a rendering of frames. *)
Definition failing_search (g : GNews) (query : string) : Result (list NewsItem) :=
  Err (LibraryError "search backend unreachable").

Definition empty_search (g : GNews) (query : string) : Result (list NewsItem) :=
  Ok [].

(** What [to_datetime_rfc1123] makes of the published dates of the two
    sample articles that are kept. *)
Definition sample_parsed : Series :=
  [(0, VTimestamp (mkTimestamp (mkDate 2023 7 3) 7 0 0));
   (2, VTimestamp (mkTimestamp (mkDate 2023 7 3) 7 0 0))].

Definition raw_all_failed : DataFrame :=
  mkDF raw_columns
    [(0, raw_row "Saham BBCA" "http://x"
           "Error when downloading and parsing article from http://x: timeout"
           (VStr "Error when downloading and parsing article from http://x: timeout"));
     (1, raw_row "BBCA hari ini" "http://y"
           "Error when downloading and parsing article from http://y: 404"
           (VStr "Error when downloading and parsing article from http://y: 404"))].

Definition raw_with_none_text : DataFrame :=
  mkDF raw_columns
    [(0, raw_row "Laba BBCA naik" "http://a" "text" VNone);
     (1, <["full_text" := VNone]> (raw_row "Saham BBCA" "http://x" "" VNone))].

Definition raw_without_url : DataFrame :=
  mkDF ["title"; "description"; "published date"; "publisher";
        "full_text"; "image_url"; "entity"]
    [(0, delete "url" (raw_row "Laba BBCA naik" "http://a" "text" VNone))].

Definition sample_to_string (t : DataFrame) : string :=
  String.concat " " (df_columns t).

(** * Properties *)

(** ** Results and traversals *)

Lemma Result_bind_Ok {A B} (f : A → Result B) a : (Ok a ≫= f) = f a.
Proof. reflexivity. Qed.

Lemma Result_bind_Err {A B} (f : A → Result B) e : (Err e ≫= f) = Err e.
Proof. reflexivity. Qed.

Lemma Result_bind_inv {A B} (f : A → Result B) r b :
  r ≫= f = Ok b → ∃ a, r = Ok a ∧ f a = Ok b.
Proof. destruct r as [a|e]; [eauto | discriminate]. Qed.

Lemma traverse_Ok {A B} (f : A → Result B) xs ys :
  traverse f xs = Ok ys ↔ Forall2 (λ x y, f x = Ok y) xs ys.
Proof.
  revert ys. induction xs as [|x xs IH]; intros ys; simpl.
  - split; [intros [= <-]; constructor | by inversion 1].
  - split.
    + intros (y & Hy & H)%Result_bind_inv.
      apply Result_bind_inv in H as (ys' & Hys & [= <-]).
      constructor; [done | by apply IH].
    + inversion 1 as [|? y ? ys' Hy Hys]; subst.
      apply IH in Hys. by rewrite Hy, Result_bind_Ok, Hys.
Qed.

Lemma traverse_Err {A B} (f : A → Result B) xs x e :
  x ∈ xs → f x = Err e → is_Err (traverse f xs).
Proof.
  induction 1 as [x xs | x y xs _ IH]; intros Hx; simpl.
  - by rewrite Hx.
  - destruct (f y); [| done]. rewrite Result_bind_Ok.
    specialize (IH Hx). by destruct (traverse f xs).
Qed.

Lemma traverse_total {A B} (f : A → Result B) xs :
  Forall (λ x, ∃ y, f x = Ok y) xs → ∃ ys, traverse f xs = Ok ys.
Proof.
  induction 1 as [|x xs [y Hy] _ [ys Hys]]; simpl; [eauto |].
  rewrite Hy, Result_bind_Ok, Hys. eauto.
Qed.

(** ** Strings *)

Lemma prefix_spec pat s :
  String.prefix pat s = true ↔ ∃ post, s = (pat ++ post)%string.
Proof.
  revert s. induction pat as [|a pat IH]; intros [|b s]; simpl.
  - split; [by exists EmptyString | done].
  - split; [by exists (String b s) | done].
  - split; [done | intros [? [=]]].
  - destruct (Ascii.ascii_dec a b) as [->|Hne].
    + rewrite IH. split; intros [post E]; exists post; [by rewrite E | by injection E].
    + split; [done | intros [? [= ? _]]; congruence].
Qed.

(** [contains] is the substring test: [s] is some text, [pat], some text. *)
Lemma contains_spec pat s :
  contains pat s = true ↔ ∃ pre post, s = (pre ++ pat ++ post)%string.
Proof.
  induction s as [|a s IH]; cbn [contains]; rewrite orb_true_iff, prefix_spec.
  - split.
    + intros [[post E] | [=]]. by exists EmptyString, post.
    + intros ([|? ?] & post & E); [left; eauto | discriminate].
  - rewrite IH. split.
    + intros [[post E] | (pre & post & E)].
      * by exists EmptyString, post.
      * exists (String a pre), post. simpl. by rewrite E.
    + intros ([|b pre] & post & E); [left; eauto |].
      right. injection E as -> E. eauto.
Qed.

Lemma has_char_app c s1 s2 :
  has_char c (s1 ++ s2)%string = has_char c s1 || has_char c s2.
Proof. induction s1 as [|a s1 IH]; simpl; [done |]. by rewrite IH, orb_assoc. Qed.

(** After the substitution the character is gone, unless the replacement
    brings it back. *)
Lemma has_char_re_sub_same c repl s :
  has_char c repl = false → has_char c (re_sub c repl s) = false.
Proof.
  intros Hrepl. induction s as [|a s IH]; simpl; [done |].
  case_decide; simpl.
  - by rewrite has_char_app, Hrepl, IH.
  - by rewrite bool_decide_eq_false_2, IH.
Qed.

(** A substitution does not introduce a character that neither the text nor
    the replacement has. *)
Lemma has_char_re_sub_other c c' repl s :
  has_char c repl = false → has_char c s = false →
  has_char c (re_sub c' repl s) = false.
Proof.
  intros Hrepl. induction s as [|a s IH]; simpl; [done |].
  intros [Ha Hs]%orb_false_iff.
  destruct (decide (a = c')); simpl.
  - rewrite has_char_app, Hrepl. by apply IH.
  - by rewrite Ha, IH.
Qed.

(** A text without the character is left as it is. *)
Lemma re_sub_absent c repl s : has_char c s = false → re_sub c repl s = s.
Proof.
  induction s as [|a s IH]; simpl; [done |].
  intros [Ha%bool_decide_eq_false Hs]%orb_false_iff.
  rewrite decide_False by done. by rewrite IH.
Qed.

(** The three substitutions of the Cleaner, one after the other, come to the
    character-by-character rewriting of the spec. *)
Lemma re_sub_normalized s :
  re_sub backslash "" (re_sub CR "||" (re_sub LF "||" s)) = normalized s.
Proof.
  induction s as [|a s IH]; [done |].
  cbn [re_sub normalized]. unfold normal_char.
  destruct (decide (a = LF)) as [->|HLF]; [by rewrite <-IH |].
  cbn [re_sub].
  destruct (decide (a = CR)) as [->|HCR]; [by rewrite <-IH |].
  cbn [re_sub].
  rewrite (decide_False (P := a = LF ∨ a = CR)) by tauto.
  destruct (decide (a = backslash)) as [->|Hbs]; by rewrite <-IH.
Qed.

Lemma normalized_clean s c :
  c = LF ∨ c = CR ∨ c = backslash → has_char c (normalized s) = false.
Proof.
  intros Hc. induction s as [|a s IH]; [done |].
  cbn [normalized]. rewrite has_char_app, IH, orb_false_r.
  unfold normal_char. repeat case_decide; [by destruct Hc as [->| [->| ->]] .. |].
  simpl. rewrite orb_false_r. apply bool_decide_eq_false. naive_solver.
Qed.

Lemma normalized_id s :
  has_char LF s = false → has_char CR s = false → has_char backslash s = false →
  normalized s = s.
Proof.
  induction s as [|a s IH]; [done |]. simpl.
  intros [H1%bool_decide_eq_false ?]%orb_false_iff
         [H2%bool_decide_eq_false ?]%orb_false_iff
         [H3%bool_decide_eq_false ?]%orb_false_iff.
  unfold normal_char. rewrite !decide_False by tauto. simpl. by rewrite IH.
Qed.

(** ** Column labels *)

Section Labels.
Implicit Types (c : string) (l : list string).

Lemma occurrences_cons c x l :
  occurrences c (x :: l) = (if decide (x = c) then 1 else 0) + occurrences c l.
Proof. unfold occurrences. rewrite filter_cons. by case_decide. Qed.

Lemma occurrences_app c l1 l2 :
  occurrences c (l1 ++ l2) = occurrences c l1 + occurrences c l2.
Proof. unfold occurrences. by rewrite filter_app, length_app. Qed.

Lemma occurrences_zero c l : occurrences c l = 0 ↔ c ∉ l.
Proof.
  induction l as [|x l IH]; [split; [intros _; apply not_elem_of_nil | done] |].
  rewrite occurrences_cons, not_elem_of_cons. case_decide as E.
  - subst. split; [lia | by intros []].
  - simpl. rewrite IH. naive_solver.
Qed.

Lemma occurrences_pos c l : 0 < occurrences c l ↔ c ∈ l.
Proof.
  destruct (decide (c ∈ l)) as [Hin|Hnin].
  - split; [done | intros _]. enough (occurrences c l ≠ 0) by lia.
    by intros E%occurrences_zero.
  - apply occurrences_zero in Hnin as E. rewrite E. split; [lia | done].
Qed.

Lemma occurrences_NoDup c l : NoDup l → (occurrences c l ≤ 1)%nat.
Proof.
  induction 1 as [|x l Hx _ IH]; [cbv; lia |]. rewrite occurrences_cons.
  case_decide as E; [| done]. subst. apply occurrences_zero in Hx. lia.
Qed.

Lemma filter_label c l : filter (λ x, x = c) l = replicate (occurrences c l) c.
Proof.
  induction l as [|x l IH]; [done |]. rewrite occurrences_cons, filter_cons.
  case_decide; simpl; by rewrite IH; subst.
Qed.

Lemma occurrences_add_label_same c l :
  occurrences c (add_label c l) = occurrences c l `max` 1.
Proof.
  unfold add_label. case_decide as Hin.
  - apply occurrences_pos in Hin. lia.
  - apply occurrences_zero in Hin as E. rewrite occurrences_app, E.
    rewrite occurrences_cons, decide_True by done. done.
Qed.

Lemma occurrences_add_label_other c c' l :
  c ≠ c' → occurrences c (add_label c' l) = occurrences c l.
Proof.
  intros Hne. unfold add_label. case_decide; [done |].
  rewrite occurrences_app, occurrences_cons, decide_False by done.
  unfold occurrences. simpl. lia.
Qed.

Lemma add_label_present c l : c ∈ l → add_label c l = l.
Proof. intros. unfold add_label. by rewrite decide_True. Qed.

Lemma elem_of_add_label c c' l : c ∈ add_label c' l ↔ c = c' ∨ c ∈ l.
Proof.
  unfold add_label. case_decide; [naive_solver |].
  rewrite elem_of_app, list_elem_of_singleton. naive_solver.
Qed.

(** Renaming [old] to [new] merges the columns of the two labels. *)
Lemma occurrences_renamed_new old new l :
  old ≠ new →
  occurrences new ((λ c, if decide (c = old) then new else c) <$> l)
  = occurrences old l + occurrences new l.
Proof.
  intros Hne. induction l as [|x l IH]; [done |].
  rewrite fmap_cons, !occurrences_cons, IH.
  repeat case_decide; subst; try done; lia.
Qed.

Lemma occurrences_renamed_other old new c l :
  c ≠ old → c ≠ new →
  occurrences c ((λ c, if decide (c = old) then new else c) <$> l)
  = occurrences c l.
Proof.
  intros Hold Hnew. induction l as [|x l IH]; [done |].
  rewrite fmap_cons, !occurrences_cons, IH.
  repeat case_decide; subst; try done; lia.
Qed.

End Labels.

(** ** Frames, column by column *)

Section Frames.
Implicit Types (t : DataFrame) (c : string) (s : Series)
  (rows : list (label * gmap string value)).

Lemma column_rows t c : column t c = rows_column (df_rows t) c.
Proof. reflexivity. Qed.

Lemma rows_column_index rows c : (rows_column rows c).*1 = rows.*1.
Proof. unfold rows_column. rewrite <-list_fmap_compose. done. Qed.

Lemma column_index t c : (column t c).*1 = index t.
Proof. apply rows_column_index. Qed.

Lemma frame_getitem_Ok t c s :
  frame_getitem t c = Ok s ↔ occurrences c (df_columns t) = 1 ∧ s = column t c.
Proof.
  unfold frame_getitem.
  destruct (occurrences c (df_columns t)) as [|[|n]]; naive_solver.
Qed.

Lemma frame_getitem_present t c :
  occurrences c (df_columns t) = 1 → frame_getitem t c = Ok (column t c).
Proof. intros. by apply frame_getitem_Ok. Qed.

Lemma frame_getitem_absent t c :
  c ∉ df_columns t → frame_getitem t c = Err (KeyError [c]).
Proof. intros E%occurrences_zero. unfold frame_getitem. by rewrite E. Qed.

(** Writing a column keeps the index and the other columns. *)
Lemma set_column_index c rows vals : (set_column c rows vals).*1 = rows.*1.
Proof.
  revert vals. induction rows as [|[i r] rows IH]; intros vals; [done |].
  destruct vals; simpl; by rewrite IH.
Qed.

Lemma set_column_other c c' rows vals :
  c ≠ c' → rows_column (set_column c rows vals) c' = rows_column rows c'.
Proof.
  intros Hne. revert vals. induction rows as [|[i r] rows IH]; intros vals; [done |].
  unfold rows_column in *.
  destruct vals; simpl; rewrite IH; unfold cell; simpl;
    by rewrite lookup_insert_ne.
Qed.

Lemma set_column_same c rows s :
  s.*1 = rows.*1 → rows_column (set_column c rows s.*2) c = s.
Proof.
  revert s. induction rows as [|[i r] rows IH]; intros [|[j v] s]; try done.
  simpl. intros [= -> E]. unfold rows_column in *. simpl.
  rewrite IH by done. unfold cell. simpl. by rewrite lookup_insert_eq.
Qed.

Lemma set_column_length c rows vals : length (set_column c rows vals) = length rows.
Proof. by rewrite <-(length_fmap fst), set_column_index, length_fmap. Qed.

Lemma frame_setitem_index t c s : index (frame_setitem t c s) = index t.
Proof. apply set_column_index. Qed.

Lemma frame_setitem_other t c c' s :
  c ≠ c' → column (frame_setitem t c s) c' = column t c'.
Proof. apply set_column_other. Qed.

Lemma frame_setitem_same t c s :
  s.*1 = index t → column (frame_setitem t c s) c = s.
Proof. apply set_column_same. Qed.

(** Renaming keeps the index and the columns of the other labels, and moves
    the column. *)
Lemma frame_rename_index t old new : index (frame_rename t old new) = index t.
Proof.
  unfold frame_rename, index. case_decide; [| done]. simpl.
  by rewrite <-list_fmap_compose.
Qed.

Lemma frame_rename_other t old new c :
  c ≠ old → c ≠ new → column (frame_rename t old new) c = column t c.
Proof.
  intros Hold Hnew. unfold frame_rename. case_decide; [| done].
  unfold column. simpl. rewrite <-list_fmap_compose. apply list_fmap_ext.
  intros _ [i r] _. simpl. unfold cell.
  by rewrite lookup_insert_ne, lookup_delete_ne.
Qed.

Lemma frame_rename_new t old new :
  column (frame_rename t old new) new
  = column t (if decide (old ∈ df_columns t) then old else new).
Proof.
  unfold frame_rename. case_decide; [| done].
  unfold column. simpl. rewrite <-list_fmap_compose. apply list_fmap_ext.
  intros _ [i r] _. simpl. unfold cell at 1. by rewrite lookup_insert_eq.
Qed.

Lemma frame_rename_columns t old new :
  df_columns (frame_rename t old new)
  = (λ c, if decide (c = old) then new else c) <$> df_columns t.
Proof.
  unfold frame_rename. case_decide as Hin; [done |].
  symmetry. rewrite <-(list_fmap_id (df_columns t)) at 2.
  apply list_fmap_ext. intros _ c Hc%list_elem_of_lookup_2. simpl.
  case_decide; [by subst | done].
Qed.

(** Selecting rows. *)
Lemma select_fmap {A B} (f : A → B) (xs : list A) mask :
  select (f <$> xs) mask = f <$> select xs mask.
Proof.
  revert mask. induction xs as [|x xs IH]; intros [|[] mask]; simpl; try done;
    by rewrite IH.
Qed.

Lemma select_filter {A} (p : A → bool) (xs : list A) :
  select xs (p <$> xs) = filter (λ x, p x = true) xs.
Proof.
  induction xs as [|x xs IH]; [done |].
  rewrite fmap_cons, filter_cons. cbn [select]. rewrite IH.
  destruct (p x); by case_decide.
Qed.

Lemma frame_mask_column t mask c :
  column (frame_mask t mask) c = select (column t c) mask.*2.
Proof. unfold column. simpl. by rewrite select_fmap. Qed.

(** Projecting keeps the index and the columns asked for. *)
Lemma frame_project_Ok t cols t' :
  frame_project t cols = Ok t' →
  Forall (λ c, c ∈ df_columns t) cols ∧
  df_columns t' = (c ← cols; filter (λ x, x = c) (df_columns t)) ∧
  index t' = index t ∧
  ∀ c, c ∈ cols → column t' c = column t c.
Proof.
  unfold frame_project.
  destruct (filter _ cols) as [|m ms] eqn:Hmiss; [| done]. intros [= <-].
  split_and!; simpl.
  - apply Forall_forall. intros c Hc.
    destruct (decide (c ∈ df_columns t)) as [|Hnin]; [done |].
    assert (c ∈ filter (λ c, c ∉ df_columns t) cols) as Hf
      by by apply list_elem_of_filter.
    rewrite Hmiss in Hf. by apply elem_of_nil in Hf.
  - done.
  - unfold index. simpl. by rewrite <-list_fmap_compose.
  - intros c Hc. unfold column. simpl. rewrite <-list_fmap_compose.
    apply list_fmap_ext. intros _ [i r] _. simpl. unfold cell.
    enough (filter (λ kv, kv.1 ∈ cols) r !! c = r !! c) as -> by done.
    destruct (r !! c) as [v|] eqn:E.
    + by apply map_lookup_filter_Some.
    + apply map_lookup_filter_None. by left.
Qed.

Lemma frame_project_present t cols :
  Forall (λ c, c ∈ df_columns t) cols → ∃ t', frame_project t cols = Ok t'.
Proof.
  intros Hall. unfold frame_project.
  destruct (filter _ cols) as [|m ms] eqn:Hmiss; [eauto |].
  assert (m ∈ filter (λ c, c ∉ df_columns t) cols) as Hm
    by (rewrite Hmiss; left).
  apply list_elem_of_filter in Hm as [Hnin Hm].
  rewrite Forall_forall in Hall. by apply Hall in Hm.
Qed.

Lemma frame_project_absent t cols c :
  c ∈ cols → c ∉ df_columns t → is_Err (frame_project t cols).
Proof.
  intros Hc Hnin. unfold frame_project.
  destruct (filter _ cols) as [|m ms] eqn:Hmiss; [| done].
  assert (c ∈ filter (λ c, c ∉ df_columns t) cols) as Hf
    by by apply list_elem_of_filter.
  rewrite Hmiss in Hf. by apply elem_of_nil in Hf.
Qed.

End Frames.

(** ** Series operations *)

Section SeriesOps.
Implicit Types (s : Series) (c : string).

Lemma series_replace_index a repl s : (series_replace a repl s).*1 = s.*1.
Proof. unfold series_replace. by rewrite <-list_fmap_compose. Qed.

Lemma traverse_index {A B} (f : label * A → Result B) (g : B → label)
    (xs : list (label * A)) ys :
  (∀ x y, f x = Ok y → g y = x.1) →
  traverse f xs = Ok ys → g <$> ys = xs.*1.
Proof.
  intros Hf H%traverse_Ok. induction H as [|x y xs ys Hxy _ IH]; [done |].
  rewrite !fmap_cons, IH. f_equal. by apply Hf.
Qed.

Lemma series_apply_index f s s' : series_apply f s = Ok s' → s'.*1 = s.*1.
Proof.
  apply traverse_index. intros [i v] y. simpl.
  by intros (w & _ & [= <-])%Result_bind_inv.
Qed.

Lemma dt_date_index s s' : dt_date s = Ok s' → s'.*1 = s.*1.
Proof.
  apply traverse_index. intros [i v] y. simpl.
  by intros (w & _ & [= <-])%Result_bind_inv.
Qed.

(** The date column is the time column, value by value. *)
Lemma dt_date_Ok s s' :
  dt_date s = Ok s' ↔
  Forall2 (λ iv jd, jd.1 = iv.1 ∧ date_of iv.2 = Ok jd.2) s s'.
Proof.
  unfold dt_date. etrans; [apply traverse_Ok |].
  split; intros H; (eapply Forall2_impl; [exact H |]);
    intros [i v] [j d]; simpl; destruct (date_of v); simpl; naive_solver.
Qed.

(** The filter mask exists exactly when every full_text is a [str]; it then
    keeps the rows without the marker. *)
Lemma keep_mask_Ok s keep :
  series_invert (str_contains failure_marker s) = Ok keep ↔
  Forall (λ iv, is_str iv.2) s ∧
  keep = (λ iv, (iv.1, negb (is_failure iv.2))) <$> s.
Proof.
  revert keep. induction s as [|[i v] s IH]; intros keep.
  - simpl. split; [by intros [= <-] | by intros [_ ->]].
  - unfold series_invert, str_contains in *. rewrite fmap_cons. cbn [traverse].
    rewrite Forall_cons. cbn [fst snd].
    destruct v as [x| | | | | |]; cbn [fst snd];
      try (rewrite Result_bind_Err; split; [done | by intros [[[? [=]] _] _]]).
    rewrite Result_bind_Ok. split.
    + intros (keep' & Hk & [= <-])%Result_bind_inv.
      apply IH in Hk as [Hall ->]. split; [split; [by exists x | done] | done].
    + intros [[_ Hall] ->].
      assert (traverse
        (λ ib, match ib.2 with Some b => Ok (ib.1, negb b) | None => Err TypeError end)
        ((λ iv, (iv.1, match iv.2 with
                       | VStr x => Some (contains failure_marker x)
                       | _ => None
                       end)) <$> s)
        = Ok ((λ iv, (iv.1, negb (is_failure iv.2))) <$> s)) as -> by by apply IH.
      done.
Qed.

Lemma keep_mask_Err s i v :
  (i, v) ∈ s → ¬ is_str v →
  is_Err (series_invert (str_contains failure_marker s)).
Proof.
  intros Hin Hv.
  destruct (series_invert (str_contains failure_marker s)) as [keep|] eqn:E; [| done].
  apply keep_mask_Ok in E as [Hall _]. rewrite Forall_forall in Hall.
  by apply Hall in Hin.
Qed.

Lemma series_replace_normalized s :
  series_replace backslash "" (series_replace CR "||" (series_replace LF "||" s))
  = (λ iv, (iv.1, normalized_cell iv.2)) <$> s.
Proof.
  unfold series_replace. rewrite <-!list_fmap_compose. apply list_fmap_ext.
  intros _ [i v] _. simpl. destruct v; try done. simpl.
  by rewrite re_sub_normalized.
Qed.

End SeriesOps.

(** ** The stages of the Cleaner *)

Section CleanerStages.
Variable to_datetime : Series → Result Series.
Implicit Types (t : DataFrame) (c : string) (s : Series).

(** The filter needs one full_text column of texts; it keeps the rows
    without the marker, in order, with their index labels. *)
Lemma clean_filter_Ok t t1 :
  clean_filter t = Ok t1 ↔
  occurrences "full_text" (df_columns t) = 1 ∧
  Forall (λ iv, is_str iv.2) (column t "full_text") ∧
  t1 = mkDF (df_columns t) (survivors t).
Proof.
  assert (∀ keep, keep = (λ iv, (iv.1, negb (is_failure iv.2))) <$> column t "full_text" →
    frame_mask t keep = mkDF (df_columns t) (survivors t)) as Hmask.
  { intros keep ->. unfold frame_mask, survivors, column. f_equal.
    rewrite <-!list_fmap_compose.
    etrans; [exact (select_filter
      (λ ir, negb (is_failure (cell ir.2 "full_text"))) (df_rows t)) |].
    apply list_filter_iff. intros [i r]. simpl. by destruct (is_failure _). }
  unfold clean_filter. split.
  - intros (s & [Hocc ->]%frame_getitem_Ok & H)%Result_bind_inv.
    apply Result_bind_inv in H as (keep & [Hall Hkeep]%keep_mask_Ok & [= <-]).
    by rewrite (Hmask keep).
  - intros (Hocc & Hall & ->).
    rewrite frame_getitem_present, Result_bind_Ok by done.
    pose proof (proj2 (keep_mask_Ok (column t "full_text") _) (conj Hall eq_refl)) as ->.
    by rewrite Result_bind_Ok, (Hmask _ eq_refl).
Qed.

Lemma clean_text_Ok t a repl t' :
  clean_text t a repl = Ok t' ↔
  occurrences "full_text" (df_columns t) = 1 ∧
  t' = frame_setitem t "full_text" (series_replace a repl (column t "full_text")).
Proof.
  unfold clean_text. split.
  - by intros (s & [Hocc ->]%frame_getitem_Ok & [= <-])%Result_bind_inv.
  - intros [Hocc ->]. by rewrite frame_getitem_present.
Qed.

(** One substitution pass: same labels, same index, the other columns as
    they were. *)
Lemma clean_text_frame t a repl t' :
  clean_text t a repl = Ok t' →
  df_columns t' = df_columns t ∧ index t' = index t ∧
  column t' "full_text" = series_replace a repl (column t "full_text") ∧
  ∀ c, c ≠ "full_text" → column t' c = column t c.
Proof.
  intros [Hocc ->]%clean_text_Ok. split_and!.
  - simpl. apply add_label_present, occurrences_pos. lia.
  - apply frame_setitem_index.
  - apply frame_setitem_same. by rewrite series_replace_index, column_index.
  - intros c Hc. by apply frame_setitem_other.
Qed.

Lemma clean_text_total t a repl :
  occurrences "full_text" (df_columns t) = 1 → ∃ t', clean_text t a repl = Ok t'.
Proof. intros. eexists. by apply clean_text_Ok. Qed.

(** The three passes together. *)
Lemma clean_texts_frame t1 t2 t3 t4 :
  clean_text t1 LF "||" = Ok t2 →
  clean_text t2 CR "||" = Ok t3 →
  clean_text t3 backslash "" = Ok t4 →
  df_columns t4 = df_columns t1 ∧ index t4 = index t1 ∧
  column t4 "full_text"
    = (λ iv, (iv.1, normalized_cell iv.2)) <$> column t1 "full_text" ∧
  ∀ c, c ≠ "full_text" → column t4 c = column t1 c.
Proof.
  intros (C2 & I2 & F2 & O2)%clean_text_frame (C3 & I3 & F3 & O3)%clean_text_frame
         (C4 & I4 & F4 & O4)%clean_text_frame.
  split_and!.
  - congruence.
  - congruence.
  - by rewrite F4, F3, F2, series_replace_normalized.
  - intros c Hc. by rewrite O4, O3, O2.
Qed.

(** What a successful run of the Cleaner went through, and what its result
    is, column by column, in terms of the surviving rows of its input. *)
Lemma cleaned_Ok_inv t t' :
  cleaned to_datetime t = Ok t' →
  ∃ names parsed,
    occurrences "full_text" (df_columns t) = 1 ∧
    Forall (λ iv, is_str iv.2) (column t "full_text") ∧
    index t' = (survivors t).*1 ∧
    column t' "full_text"
      = (λ iv, (iv.1, normalized_cell iv.2)) <$> rows_column (survivors t) "full_text" ∧
    series_apply (subscript "title") (rows_column (survivors t) "publisher") = Ok names ∧
    column t' "source_publisher" = names ∧
    to_datetime (rows_column (survivors t) (published_label t)) = Ok parsed ∧
    dt_date (column t' "published_time") = Ok (column t' "published_date") ∧
    (∀ c, c ∈ ["entity"; "title"; "url"; "image_url"] →
          column t' c = rows_column (survivors t) c) ∧
    occurrences "published_time" (working_columns t) = 1 ∧
    Forall (λ c, c ∈ working_columns t) cleaned_columns ∧
    df_columns t' = (c ← cleaned_columns; filter (λ x, x = c) (working_columns t)).
Proof.
  unfold cleaned.
  intros (t1 & (Hocc & Hall & ->)%clean_filter_Ok & H)%Result_bind_inv.
  apply Result_bind_inv in H as (t2 & H2 & H).
  apply Result_bind_inv in H as (t3 & H3 & H).
  apply Result_bind_inv in H as (t4 & H4 & H).
  destruct (clean_texts_frame _ _ _ _ H2 H3 H4) as (C4 & I4 & F4 & O4).
  clear H2 H3 H4 t2 t3. simpl in C4. unfold index in I4 at 2. simpl in I4.
  rewrite !column_rows in F4; simpl in F4.
  assert (∀ c, c ≠ "full_text" → column t4 c = rows_column (survivors t) c) as O4'
    by (intros c Hc; by rewrite O4).
  clear O4.
  set (t5 := frame_rename t4 "published date" "published_time") in *.
  assert (index t5 = (survivors t).*1) as I5 by by (unfold t5; rewrite frame_rename_index).
  assert (df_columns t5
          = (λ c, if decide (c = "published date") then "published_time" else c)
              <$> df_columns t) as C5
    by by (unfold t5; rewrite frame_rename_columns, C4).
  assert (∀ c, c ≠ "published date" → c ≠ "published_time" → column t5 c = column t4 c)
    as O5 by (intros; by apply frame_rename_other).
  assert (column t5 "published_time"
          = rows_column (survivors t) (published_label t)) as P5.
  { unfold t5, published_label. rewrite frame_rename_new, C4.
    case_decide; by apply O4'. }
  clearbody t5.
  apply Result_bind_inv in H as (t6 & H6 & H). unfold clean_publisher in H6.
  apply Result_bind_inv in H6 as (pub & [Hpub ->]%frame_getitem_Ok & H6).
  apply Result_bind_inv in H6 as (names & Hnames & [= <-]).
  apply Result_bind_inv in H as (t7 & H7 & H). unfold clean_time in H7.
  apply Result_bind_inv in H7 as (pt & [Hpt ->]%frame_getitem_Ok & H7).
  apply Result_bind_inv in H7 as (parsed & Hparsed & [= <-]).
  apply Result_bind_inv in H as (t8 & H8 & H). unfold clean_date in H8.
  apply Result_bind_inv in H8 as (pt' & [Hpt' ->]%frame_getitem_Ok & H8).
  apply Result_bind_inv in H8 as (dates & Hdates & [= <-]).
  apply frame_project_Ok in H as (Hpresent & Hcols & Hindex & Hproj).
  set (t6 := frame_setitem t5 "source_publisher" names) in *.
  set (t7 := frame_setitem t6 "published_time" parsed) in *.
  set (t8 := frame_setitem t7 "published_date" dates) in *.
  assert (df_columns t8 = working_columns t) as C8
    by by (unfold t8, t7, t6, working_columns; simpl; rewrite C5).
  assert (names.*1 = index t5) as Inames
    by by rewrite (series_apply_index _ _ _ Hnames), column_index.
  assert (dates.*1 = index t7) as Idates
    by by rewrite (dt_date_index _ _ Hdates), column_index.
  exists names, parsed. split_and!; try done.
  - rewrite Hindex. unfold t8, t7, t6. by rewrite !frame_setitem_index.
  - rewrite Hproj by set_solver. unfold t8, t7, t6.
    rewrite !frame_setitem_other, O5 by done. done.
  - by rewrite <-O4', <-O5.
  - rewrite Hproj by set_solver. unfold t8, t7.
    rewrite !frame_setitem_other by done. by apply frame_setitem_same.
  - rewrite <-P5. unfold t6 in Hparsed.
    by rewrite frame_setitem_other in Hparsed.
  - rewrite !Hproj by set_solver. unfold t8 at 2.
    rewrite frame_setitem_same by done. unfold t8.
    by rewrite frame_setitem_other.
  - intros c Hc. rewrite Hproj by set_solver. unfold t8, t7, t6.
    rewrite !frame_setitem_other, O5, O4' by set_solver. done.
  - rewrite <-C8. unfold t8. simpl.
    by rewrite occurrences_add_label_other.
  - by rewrite <-C8.
  - by rewrite <-C8.
Qed.

End CleanerStages.

(** ** Running statements on the heap *)

Lemma bind_run {A B} (m : M A) (f : A → M B) σ :
  (m ≫= f) σ
  = match m σ with
    | (σ', Ok a) => f a σ'
    | (σ', Err e) => (σ', Err e)
    end.
Proof. reflexivity. Qed.

(** A run that starts on the heap [h] only ever adds objects after [h]; an
    object allocated during the run sits at [length h + j], where [j] is its
    position among the new objects [ext]. *)
Section Heap.
Context (h : list DataFrame) (tr : list event).
Implicit Types (ext : list DataFrame) (t : DataFrame) (j : nat).

Lemma heap_lookup_new ext j : (h ++ ext) !! (length h + j) = ext !! j.
Proof. rewrite lookup_app_r by lia. f_equal. lia. Qed.

Lemma deref_new ext j t :
  ext !! j = Some t →
  deref (length h + j) (mkState (h ++ ext) tr) = (mkState (h ++ ext) tr, Ok t).
Proof. intros E. unfold deref. simpl. by rewrite heap_lookup_new, E. Qed.

Lemma new_run ext t :
  new t (mkState (h ++ ext) tr)
  = (mkState (h ++ (ext ++ [t])) tr, Ok (length h + length ext)).
Proof. unfold new. simpl. by rewrite length_app, <-(assoc_L (++)). Qed.

Lemma update_run ext j t :
  update (length h + j) t (mkState (h ++ ext) tr)
  = (mkState (h ++ <[j := t]> ext) tr, Ok tt).
Proof. unfold update. simpl. by rewrite insert_app_r. Qed.

Lemma copy_run df t :
  h !! df = Some t →
  copy df (mkState h tr) = (mkState (h ++ [t]) tr, Ok (length h + 0)).
Proof.
  intros E. unfold copy. rewrite bind_run. unfold deref, new. simpl.
  rewrite E. by rewrite Nat.add_0_r.
Qed.

Lemma getitem_run ext j t c :
  ext !! j = Some t →
  getitem (length h + j) c (mkState (h ++ ext) tr)
  = (mkState (h ++ ext) tr, frame_getitem t c).
Proof.
  intros E. unfold getitem. by rewrite bind_run, (deref_new _ _ t).
Qed.

Lemma setitem_run ext j t c s :
  ext !! j = Some t →
  setitem (length h + j) c s (mkState (h ++ ext) tr)
  = (mkState (h ++ <[j := frame_setitem t c s]> ext) tr, Ok tt).
Proof.
  intros E. unfold setitem. rewrite bind_run, (deref_new _ _ t) by done.
  apply update_run.
Qed.

Lemma setitem_scalar_run ext j t c v :
  ext !! j = Some t →
  setitem_scalar (length h + j) c v (mkState (h ++ ext) tr)
  = (mkState (h ++ <[j := frame_setitem_scalar t c v]> ext) tr, Ok tt).
Proof.
  intros E. unfold setitem_scalar. rewrite bind_run, (deref_new _ _ t) by done.
  apply update_run.
Qed.

Lemma setitem_list_run ext j t c vals :
  ext !! j = Some t →
  setitem_list (length h + j) c vals (mkState (h ++ ext) tr)
  = match frame_setitem_list t c vals with
    | Ok t' => (mkState (h ++ <[j := t']> ext) tr, Ok tt)
    | Err e => (mkState (h ++ ext) tr, Err e)
    end.
Proof.
  intros E. unfold setitem_list. rewrite bind_run, (deref_new _ _ t) by done.
  rewrite bind_run. unfold lift.
  destruct (frame_setitem_list t c vals); [apply update_run | done].
Qed.

Lemma getitem_mask_run ext j t mask :
  ext !! j = Some t →
  getitem_mask (length h + j) mask (mkState (h ++ ext) tr)
  = (mkState (h ++ (ext ++ [frame_mask t mask])) tr, Ok (length h + length ext)).
Proof.
  intros E. unfold getitem_mask. rewrite bind_run, (deref_new _ _ t) by done.
  apply new_run.
Qed.

Lemma rename_run ext j t old new_label :
  ext !! j = Some t →
  rename (length h + j) old new_label (mkState (h ++ ext) tr)
  = (mkState (h ++ (ext ++ [frame_rename t old new_label])) tr,
     Ok (length h + length ext)).
Proof.
  intros E. unfold rename. rewrite bind_run, (deref_new _ _ t) by done.
  apply new_run.
Qed.

Lemma getitem_list_run ext j t cols :
  ext !! j = Some t →
  getitem_list (length h + j) cols (mkState (h ++ ext) tr)
  = match frame_project t cols with
    | Ok t' => (mkState (h ++ (ext ++ [t'])) tr, Ok (length h + length ext))
    | Err e => (mkState (h ++ ext) tr, Err e)
    end.
Proof.
  intros E. unfold getitem_list. rewrite bind_run, (deref_new _ _ t) by done.
  rewrite bind_run. unfold lift.
  destruct (frame_project t cols); [apply new_run | done].
Qed.

End Heap.

(** One statement of a program: run it with the lemma of its call. *)
Ltac step :=
  rewrite bind_run;
  first
    [ erewrite getitem_run by reflexivity
    | erewrite setitem_run by reflexivity
    | erewrite getitem_mask_run by reflexivity
    | erewrite rename_run by reflexivity
    | unfold lift ];
  cbn [insert list_insert length app].

(** A library call that may raise: both outcomes. *)
Ltac fork :=
  match goal with
  | |- context [match ?r with Ok _ => _ | Err _ => _ end] =>
      lazymatch r with
      | context [mbind] => fail
      | context [match _ with Ok _ => _ | Err _ => _ end] => fail
      | _ => destruct r eqn:?
      end
  end;
  rewrite ?Result_bind_Ok, ?Result_bind_Err; cbv beta iota.

Section CleanerRun.
Variable to_datetime : Series → Result Series.

(** The program and the frame function agree: from a heap [h] that holds
    the frame [t] at [df], the Cleaner ends on [h] followed by the frames it
    made, and it returns a reference to [cleaned t], or raises what
    [cleaned t] raises. *)
Lemma cleaning_fetched_articles_run h tr df t :
  h !! df = Some t →
  ∃ ext : list DataFrame,
    match cleaned to_datetime t with
    | Ok t' =>
        ∃ l, cleaning_fetched_articles to_datetime df (mkState h tr)
             = (mkState (h ++ ext) tr, Ok l) ∧ (h ++ ext) !! l = Some t'
    | Err e =>
        cleaning_fetched_articles to_datetime df (mkState h tr)
        = (mkState (h ++ ext) tr, Err e)
    end.
Proof.
  intros Hdf.
  unfold cleaning_fetched_articles, cleaned, clean_filter, clean_text,
    clean_publisher, clean_time, clean_date.
  rewrite bind_run, (copy_run _ _ _ _ Hdf).
  repeat (first [ step | erewrite getitem_list_run by reflexivity | fork ]).
  all: try (eexists; reflexivity).
  eexists. eexists. split; [reflexivity |]. by rewrite heap_lookup_new.
Qed.

End CleanerRun.

(** ** The Cleaner *)

Section CleanerClaims.
Variable to_datetime : Series → Result Series.
Implicit Types (t : DataFrame) (σ : state) (df : loc).

Abbreviation Cleaner := (cleaning_fetched_articles to_datetime).

Lemma Cleaner_returns σ df t t' :
  heap σ !! df = Some t →
  returns (Cleaner df) σ t' ↔ cleaned to_datetime t = Ok t'.
Proof.
  destruct σ as [h tr]. simpl. intros Hdf.
  destruct (cleaning_fetched_articles_run to_datetime h tr df t Hdf) as [ext Hrun].
  unfold returns. destruct (cleaned to_datetime t) as [t''|e].
  - destruct Hrun as (l & -> & Hl). split.
    + intros (σ' & l' & [= <- <-] & Hl'). simpl in Hl'. congruence.
    + intros [= <-]. eauto.
  - rewrite Hrun. split; [by intros (? & ? & [=] & _) | done].
Qed.

Lemma Cleaner_raises σ df t :
  heap σ !! df = Some t →
  raises (Cleaner df) σ ↔ is_Err (cleaned to_datetime t).
Proof.
  destruct σ as [h tr]. simpl. intros Hdf.
  destruct (cleaning_fetched_articles_run to_datetime h tr df t Hdf) as [ext Hrun].
  unfold raises. destruct (cleaned to_datetime t) as [t''|e].
  - destruct Hrun as (l & -> & Hl). split; [by intros (? & ? & [=]) | done].
  - rewrite Hrun. split; [done | eauto].
Qed.

Lemma Cleaner_raises_exn σ df t e :
  heap σ !! df = Some t →
  cleaned to_datetime t = Err e →
  ∃ σ', Cleaner df σ = (σ', Err e).
Proof.
  destruct σ as [h tr]. simpl. intros Hdf Hc.
  destruct (cleaning_fetched_articles_run to_datetime h tr df t Hdf) as [ext Hrun].
  rewrite Hc in Hrun. eauto.
Qed.

Lemma column_lookup t c k ir :
  df_rows t !! k = Some ir → column t c !! k = Some (ir.1, cell ir.2 c).
Proof. intros E. unfold column. by rewrite list_lookup_fmap, E. Qed.

Lemma rows_column_lookup rows c k iv :
  rows_column rows c !! k = Some iv →
  ∃ ir, rows !! k = Some ir ∧ iv = (ir.1, cell ir.2 c).
Proof.
  unfold rows_column. rewrite list_lookup_fmap.
  destruct (rows !! k) as [ir|]; [| done]. intros [= <-]. eauto.
Qed.

Lemma survivors_failed_length t :
  length (survivors t) + length (failed_rows t) = nrows t.
Proof.
  unfold survivors, failed_rows, nrows.
  induction (df_rows t) as [|ir rows IH]; [done |].
  rewrite !filter_cons. destruct (is_failure _); simpl in *;
    repeat case_decide; simpl; try done; lia.
Qed.

Lemma survivor_spec t ir :
  ir ∈ survivors t ↔ ir ∈ df_rows t ∧ is_failure (cell ir.2 "full_text") = false.
Proof. unfold survivors. rewrite list_elem_of_filter. tauto. Qed.

(** C1.  The cleaned table has as many rows as the raw table has rows whose
    full_text does not contain the failure marker: at most the raw count, and
    the raw count less the rows with the marker.  Its rows are those raw rows,
    in order: the k-th cleaned row has the index label of the k-th raw row
    without the marker, whose full_text is a text that does not contain it. *)
Theorem cleaner_row_count σ df t t' :
  heap σ !! df = Some t →
  returns (Cleaner df) σ t' →
  (nrows t' ≤ nrows t)%nat ∧
  nrows t' = nrows t - length (failed_rows t) ∧
  ∀ k ir', df_rows t' !! k = Some ir' →
    ∃ ir s, survivors t !! k = Some ir ∧ ir ∈ df_rows t ∧ ir'.1 = ir.1 ∧
            cell ir.2 "full_text" = VStr s ∧
            contains failure_marker s = false.
Proof.
  intros Hdf Hret. apply (Cleaner_returns _ _ _ _ Hdf) in Hret.
  apply cleaned_Ok_inv in Hret
    as (names & parsed & _ & Hstr & Hindex & _).
  assert (nrows t' = length (survivors t)) as Hn.
  { unfold nrows. by rewrite <-(length_fmap fst), <-(length_fmap fst (survivors t)),
      <-Hindex. }
  pose proof (survivors_failed_length t). split_and!; [lia | lia |].
  intros k ir' Hk.
  assert (index t' !! k = Some ir'.1) as Hi
    by by (unfold index; rewrite list_lookup_fmap, Hk).
  rewrite Hindex, list_lookup_fmap in Hi.
  destruct (survivors t !! k) as [ir|] eqn:Hs; [| done].
  injection Hi as Hi.
  apply list_elem_of_lookup_2 in Hs as Hin. apply survivor_spec in Hin as [Hin Hfail].
  rewrite Forall_forall in Hstr.
  destruct (Hstr (ir.1, cell ir.2 "full_text")) as [s Hs'].
  { apply list_elem_of_fmap. eauto. }
  simpl in Hs'. exists ir, s. rewrite Hs' in Hfail. eauto.
Qed.

(** Two columns of one frame agree row by row. *)
Lemma Forall2_fmap_same {A B C} (P : B → C → Prop) (f : A → B) (g : A → C) l :
  Forall2 P (f <$> l) (g <$> l) ↔ Forall (λ x, P (f x) (g x)) l.
Proof.
  induction l as [|x l IH]; simpl.
  - split; constructor.
  - rewrite Forall_cons, <-IH. split.
    + by inversion 1.
    + intros [? ?]. by constructor.
Qed.


(** C5, as amended.  When none of the labels entity, source_publisher,
    title, url, published_date and image_url is carried by more than one
    column of the raw table, the columns of the cleaned table are exactly
    entity, source_publisher, title, full_text, url, published_time,
    published_date, image_url, in this order. *)
Theorem cleaner_columns σ df t t' :
  Forall (λ c, (occurrences c (df_columns t) ≤ 1)%nat)
    ["entity"; "source_publisher"; "title"; "url"; "published_date"; "image_url"] →
  heap σ !! df = Some t →
  returns (Cleaner df) σ t' →
  df_columns t'
  = ["entity"; "source_publisher"; "title"; "full_text"; "url";
     "published_time"; "published_date"; "image_url"].
Proof.
  intros Honce Hdf Hret. apply (Cleaner_returns _ _ _ _ Hdf) in Hret.
  apply cleaned_Ok_inv in Hret
    as (names & parsed & Hft & _ & _ & _ & _ & _ & _ & _ & _ & Hpt & Hpresent & ->).
  rewrite Forall_forall in Honce.
  assert (∀ c, c ∈ cleaned_columns → c ≠ "published_time" →
               (occurrences c (df_columns t) ≤ 1)%nat) as Hle.
  { intros c Hc Hne. destruct (decide (c = "full_text")) as [->|Hne']; [lia |].
    apply Honce. unfold cleaned_columns in Hc. set_solver. }
  assert (∀ c, c ∈ cleaned_columns → occurrences c (working_columns t) = 1) as Hone.
  { intros c Hc.
    assert (0 < occurrences c (working_columns t)) as Hpos.
    { apply occurrences_pos. rewrite Forall_forall in Hpresent. auto. }
    enough (occurrences c (working_columns t) ≤ 1)%nat by lia.
    destruct (decide (c = "published_time")) as [->|Hne1]; [lia |].
    clear Hpos. unfold working_columns.
    assert (∀ x, x ≠ "published date" → x ≠ "published_time" → x ∈ cleaned_columns →
      (occurrences x ((λ c, if decide (c = "published date") then "published_time" else c)
                        <$> df_columns t) ≤ 1)%nat) as Hren.
    { intros x ? ? ?. rewrite occurrences_renamed_other by done.
      by apply Hle. }
    destruct (decide (c = "published_date")) as [->|Hne2].
    { rewrite occurrences_add_label_same, !occurrences_add_label_other by done.
      specialize (Hren "published_date" ltac:(done) ltac:(done) Hc). lia. }
    rewrite occurrences_add_label_other by done.
    rewrite occurrences_add_label_other by done.
    destruct (decide (c = "source_publisher")) as [->|Hne3].
    { rewrite occurrences_add_label_same.
      specialize (Hren "source_publisher" ltac:(done) ltac:(done) Hc). lia. }
    rewrite occurrences_add_label_other by done.
    apply Hren; [| done | done]. intros ->. unfold cleaned_columns in Hc. set_solver. }
  unfold cleaned_columns in *. simpl.
  rewrite !filter_label, !Hone by set_solver. done.
Qed.

(** C7.  In every row of the cleaned table published_time is a timestamp
    and published_date is the calendar date of that timestamp, its [ts_date];
    or published_time is [NaT] and published_date is [NaT] too. *)
Theorem cleaner_published_date σ df t t' :
  heap σ !! df = Some t →
  returns (Cleaner df) σ t' →
  ∀ k ir', df_rows t' !! k = Some ir' →
    (∃ ts, cell ir'.2 "published_time" = VTimestamp ts ∧
           cell ir'.2 "published_date" = VDate (ts_date ts)) ∨
    (cell ir'.2 "published_time" = VNaT ∧ cell ir'.2 "published_date" = VNaT).
Proof.
  intros Hdf Hret. apply (Cleaner_returns _ _ _ _ Hdf) in Hret.
  apply cleaned_Ok_inv in Hret
    as (names & parsed & _ & _ & _ & _ & _ & _ & _ & Hdate & _).
  apply dt_date_Ok in Hdate. unfold column in Hdate.
  apply Forall2_fmap_same in Hdate. rewrite Forall_forall in Hdate.
  intros k ir' Hk%list_elem_of_lookup_2. apply Hdate in Hk as [_ Hk].
  simpl in Hk.
  destruct (cell ir'.2 "published_time") as [| | | |ts| |]; try discriminate Hk;
    injection Hk as <-; [left | right]; eauto.
Qed.

(** C8.  In every row of the cleaned table source_publisher is the "title"
    entry of the publisher structure of the raw row it comes from. *)
Theorem cleaner_source_publisher σ df t t' :
  heap σ !! df = Some t →
  returns (Cleaner df) σ t' →
  ∀ k ir', df_rows t' !! k = Some ir' →
    ∃ ir publisher, survivors t !! k = Some ir ∧
      publisher_name (cell ir.2 "publisher") = Some publisher ∧
      cell ir'.2 "source_publisher" = VStr publisher.
Proof.
  intros Hdf Hret. apply (Cleaner_returns _ _ _ _ Hdf) in Hret.
  apply cleaned_Ok_inv in Hret
    as (names & parsed & _ & _ & _ & _ & Hnames & Hsp & _).
  intros k ir' Hk. apply (column_lookup _ "source_publisher") in Hk.
  rewrite Hsp in Hk. apply traverse_Ok in Hnames.
  destruct (Forall2_lookup_r _ _ _ _ _ Hnames Hk) as (iv & Hs & Hsub).
  apply rows_column_lookup in Hs as (ir & Hs & ->). simpl in Hsub.
  apply Result_bind_inv in Hsub as (v & Hv & [= Hi <-]).
  unfold subscript in Hv. destruct (cell ir.2 "publisher") as [| | |d| | |] eqn:Hp;
    try done.
  destruct (d !! "title") as [publisher|] eqn:Hd; [| done]. injection Hv as <-.
  exists ir, publisher. by rewrite Hp.
Qed.

(** C9.  If a surviving row has no publisher structure with a title, or if
    [to_datetime] rejects the published times of the surviving rows, the
    Cleaner raises and returns no table. *)
Theorem cleaner_all_or_nothing σ df t :
  heap σ !! df = Some t →
  (∃ ir, ir ∈ survivors t ∧ publisher_name (cell ir.2 "publisher") = None) ∨
  is_Err (to_datetime (rows_column (survivors t) (published_label t))) →
  raises (Cleaner df) σ ∧ ¬ ∃ t', returns (Cleaner df) σ t'.
Proof.
  intros Hdf Hbad.
  assert (is_Err (cleaned to_datetime t)) as Herr.
  { destruct (cleaned to_datetime t) as [t'|e] eqn:Hc; [| done].
    apply cleaned_Ok_inv in Hc
      as (names & parsed & _ & _ & _ & _ & Hnames & _ & Hparsed & _).
    destruct Hbad as [(ir & Hin & Hnone) | Hbad].
    - apply traverse_Ok in Hnames.
      assert ((ir.1, cell ir.2 "publisher") ∈ rows_column (survivors t) "publisher")
        as Hin' by (apply list_elem_of_fmap; eauto).
      apply list_elem_of_lookup in Hin' as [k Hk].
      destruct (Forall2_lookup_l _ _ _ _ _ Hnames Hk) as (y & _ & Hy).
      simpl in Hy. apply Result_bind_inv in Hy as (v & Hv & _).
      unfold subscript in Hv. unfold publisher_name in Hnone.
      destruct (cell ir.2 "publisher"); try done. by rewrite Hnone in Hv.
    - by rewrite Hparsed in Hbad. }
  split.
  - by apply (Cleaner_raises _ _ _ Hdf).
  - intros [t' Hret]. apply (Cleaner_returns _ _ _ _ Hdf) in Hret.
    by rewrite Hret in Herr.
Qed.

(** C10.  The Cleaner does not change the frame it is given, nor any other
    frame that exists when it is called: whether it returns or raises, the
    heap it leaves is the heap it found, followed by the frames it made, and
    the reference it was given still leads to the same frame. *)
Theorem cleaner_input_untouched σ df t :
  heap σ !! df = Some t →
  heap (cleaning_fetched_articles to_datetime df σ).1 !! df = Some t ∧
  ∃ ext, heap (cleaning_fetched_articles to_datetime df σ).1 = heap σ ++ ext.
Proof.
  destruct σ as [h tr]. simpl. intros Hdf.
  destruct (cleaning_fetched_articles_run to_datetime h tr df t Hdf) as [ext Hrun].
  assert (heap (Cleaner df (mkState h tr)).1 = h ++ ext) as ->.
  { destruct (cleaned to_datetime t); [destruct Hrun as (l & -> & _) | rewrite Hrun];
      done. }
  split; [by apply lookup_app_l_Some | eauto].
Qed.

(** The frame function has a result whenever the raw table is what the
    Fetcher makes: one full_text column of texts, one publisher column with a
    title in every surviving row, the published time under one label, parsed
    by [to_datetime] into as many datetime values, and the four columns that
    are carried over. *)
Lemma cleaned_total t parsed :
  occurrences "full_text" (df_columns t) = 1 →
  Forall (λ iv, is_str iv.2) (column t "full_text") →
  occurrences "publisher" (df_columns t) = 1 →
  Forall (λ ir, is_Some (publisher_name (cell ir.2 "publisher"))) (survivors t) →
  occurrences "published date" (df_columns t)
    + occurrences "published_time" (df_columns t) = 1 →
  to_datetime (rows_column (survivors t) (published_label t)) = Ok parsed →
  parsed.*1 = (survivors t).*1 →
  Forall datetime_like parsed.*2 →
  Forall (λ c, c ∈ df_columns t) ["entity"; "title"; "url"; "image_url"] →
  ∃ t', cleaned to_datetime t = Ok t'.
Proof.
  intros Hft Hstr Hpub Hnames Hpt Hparsed Hindex Hdt Hcarried.
  unfold cleaned.
  rewrite (proj2 (clean_filter_Ok t _) (conj Hft (conj Hstr eq_refl))), Result_bind_Ok.
  set (t1 := mkDF (df_columns t) (survivors t)).
  destruct (clean_text_total t1 LF "||" Hft) as [t2 H2].
  pose proof (clean_text_frame _ _ _ _ H2) as (C2 & _).
  destruct (clean_text_total t2 CR "||") as [t3 H3]; [by rewrite C2 |].
  pose proof (clean_text_frame _ _ _ _ H3) as (C3 & _).
  destruct (clean_text_total t3 backslash "") as [t4 H4]; [by rewrite C3, C2 |].
  destruct (clean_texts_frame _ _ _ _ H2 H3 H4) as (C4 & I4 & _ & O4).
  rewrite H2, Result_bind_Ok, H3, Result_bind_Ok, H4, Result_bind_Ok.
  clear H2 H3 H4 C2 C3 t2 t3. simpl in C4. unfold index in I4 at 2. simpl in I4.
  set (t5 := frame_rename t4 "published date" "published_time").
  assert (df_columns t5
          = (λ c, if decide (c = "published date") then "published_time" else c)
              <$> df_columns t) as C5
    by by (unfold t5; rewrite frame_rename_columns, C4).
  assert (index t5 = (survivors t).*1) as I5
    by by (unfold t5; rewrite frame_rename_index).
  assert (column t5 "publisher" = rows_column (survivors t) "publisher") as P5
    by by (unfold t5; rewrite frame_rename_other, O4 by done).
  assert (column t5 "published_time"
          = rows_column (survivors t) (published_label t)) as T5.
  { unfold t5, published_label. rewrite frame_rename_new, C4.
    case_decide; by apply O4. }
  (* the publisher names *)
  unfold clean_publisher at 1.
  rewrite frame_getitem_present, Result_bind_Ok
    by by rewrite C5, occurrences_renamed_other.
  destruct (traverse_total
              (λ iv : label * value, v ← subscript "title" iv.2; Ok (iv.1, v))
              (column t5 "publisher")) as [names Hn].
  { rewrite P5. unfold rows_column. apply Forall_fmap.
    eapply Forall_impl; [exact Hnames |]. intros [i r] [name Hname]. simpl in *.
    unfold publisher_name in Hname. unfold subscript.
    destruct (cell r "publisher"); try done. rewrite Hname. eauto. }
  unfold series_apply. rewrite Hn, !Result_bind_Ok.
  set (t6 := frame_setitem t5 "source_publisher" names).
  (* the published time *)
  unfold clean_time at 1.
  rewrite frame_getitem_present, Result_bind_Ok.
  2:{ unfold t6. simpl. rewrite occurrences_add_label_other, C5 by done.
      by rewrite occurrences_renamed_new. }
  assert (column t6 "published_time" = rows_column (survivors t) (published_label t))
    as -> by by (unfold t6; rewrite frame_setitem_other).
  rewrite Hparsed, !Result_bind_Ok.
  set (t7 := frame_setitem t6 "published_time" parsed).
  (* the published date *)
  unfold clean_date at 1.
  rewrite frame_getitem_present, Result_bind_Ok.
  2:{ unfold t7, t6. simpl.
      rewrite occurrences_add_label_same, occurrences_add_label_other, C5 by done.
      rewrite occurrences_renamed_new by done. lia. }
  assert (column t7 "published_time" = parsed) as ->.
  { unfold t7. apply frame_setitem_same. unfold t6.
    by rewrite frame_setitem_index, I5. }
  destruct (traverse_total
              (λ iv : label * value, d ← date_of iv.2; Ok (iv.1, d)) parsed)
    as [dates Hd].
  { rewrite Forall_fmap in Hdt. eapply Forall_impl; [exact Hdt |].
    intros [i v]. simpl. destruct v; try done; simpl; eauto. }
  unfold dt_date. rewrite Hd, !Result_bind_Ok.
  (* the projection *)
  apply frame_project_present. unfold t7, t6. simpl. rewrite C5.
  assert (∀ c, c ≠ "published date" → c ∈ df_columns t →
    c ∈ (λ c, if decide (c = "published date") then "published_time" else c)
          <$> df_columns t) as Hren.
  { intros c Hne Hc. apply list_elem_of_fmap. exists c.
    by rewrite decide_False. }
  rewrite !Forall_cons in Hcarried. destruct Hcarried as (He & Hti & Hu & Hi & _).
  assert ("full_text" ∈ df_columns t) as Hf by (apply occurrences_pos; lia).
  unfold cleaned_columns. rewrite !Forall_cons, !elem_of_add_label.
  split_and!; first [done | auto 10].
Qed.

(** A table in the cleaned shape passes the filter and the three
    substitutions unchanged. *)
Lemma cleaned_shape_survivors t : cleaned_shape t → survivors t = df_rows t.
Proof.
  intros [_ Hrows]. unfold survivors.
  induction Hrows as [|ir rows (s & Hs & Hm & _) _ IH]; [done |].
  rewrite filter_cons, decide_True, IH; [done |]. by rewrite Hs.
Qed.

Lemma cleaned_shape_filter t : cleaned_shape t → clean_filter t = Ok t.
Proof.
  intros Hshape. apply clean_filter_Ok.
  pose proof Hshape as [Hcols Hrows]. split_and!.
  - by rewrite Hcols.
  - unfold column. apply Forall_fmap. eapply Forall_impl; [exact Hrows |].
    intros ir (s & Hs & _). by exists s.
  - rewrite cleaned_shape_survivors by done. by destruct t.
Qed.

Lemma cleaned_shape_text t a repl :
  cleaned_shape t → a = LF ∨ a = CR ∨ a = backslash →
  clean_text t a repl = Ok t.
Proof.
  intros [Hcols Hrows] Ha. apply clean_text_Ok. split; [by rewrite Hcols |].
  destruct t as [cols rows]. simpl in *. unfold frame_setitem. simpl. f_equal.
  - rewrite add_label_present; [done |]. rewrite Hcols. set_solver.
  - unfold series_replace, column. simpl. clear Hcols.
    induction Hrows as [|[i r] rows (s & Hs & _ & H1 & H2 & H3) _ IH]; [done |].
    rewrite !fmap_cons. cbn [set_column fst snd]. rewrite <-IH. do 2 f_equal.
    simpl in Hs. rewrite Hs, re_sub_absent by by destruct Ha as [->|[->| ->]].
    symmetry. apply insert_id. unfold cell in Hs.
    destruct (r !! "full_text") as [v|]; [by simpl in Hs; subst | done].
Qed.

(** C6, as amended.  Applied to a table already in the cleaned shape, the
    Cleaner does not return it: it raises [KeyError] for the label
    "publisher", which that shape no longer has.  The steps it completes
    before that, the row filter and the three substitutions in full_text,
    return the table as it is. *)
Theorem cleaner_on_cleaned_table σ df t :
  heap σ !! df = Some t →
  cleaned_shape t →
  (∃ σ', Cleaner df σ = (σ', Err (KeyError ["publisher"]))) ∧
  clean_filter t = Ok t ∧
  clean_text t LF "||" = Ok t ∧
  clean_text t CR "||" = Ok t ∧
  clean_text t backslash "" = Ok t.
Proof.
  intros Hdf Hshape.
  pose proof (cleaned_shape_filter t Hshape) as Hf.
  pose proof (cleaned_shape_text t LF "||" Hshape (or_introl eq_refl)) as H1.
  pose proof (cleaned_shape_text t CR "||" Hshape (or_intror (or_introl eq_refl))) as H2.
  pose proof (cleaned_shape_text t backslash "" Hshape
                (or_intror (or_intror eq_refl))) as H3.
  split_and!; try done.
  apply (Cleaner_raises_exn _ _ _ _ Hdf). unfold cleaned.
  rewrite Hf, Result_bind_Ok, H1, Result_bind_Ok, H2, Result_bind_Ok, H3,
    Result_bind_Ok.
  destruct Hshape as [Hcols _].
  assert (frame_rename t "published date" "published_time" = t) as ->.
  { unfold frame_rename. rewrite Hcols. by rewrite decide_False by set_solver. }
  unfold clean_publisher. rewrite frame_getitem_absent; [done |].
  rewrite Hcols. set_solver.
Qed.

End CleanerClaims.

(** ** The Cleaner on the sample tables *)

(** The run of the Cleaner on the raw sample returns the cleaned sample. *)
Ltac sample_run :=
  match goal with
  | |- returns ?m ?σ _ =>
      exists (m σ).1, 4; split; vm_compute; reflexivity
  end.

Lemma cleaned_sample_shape : cleaned_shape cleaned_sample.
Proof.
  split; [reflexivity |].
  repeat constructor; eexists; (split; [reflexivity | by vm_compute]).
Defined.

Lemma cleaner_row_count_witness :
  (nrows cleaned_sample ≤ nrows raw_sample)%nat ∧
  nrows cleaned_sample = nrows raw_sample - length (failed_rows raw_sample) ∧
  ∀ k ir', df_rows cleaned_sample !! k = Some ir' →
    ∃ ir s, survivors raw_sample !! k = Some ir ∧ ir ∈ df_rows raw_sample ∧
            ir'.1 = ir.1 ∧ cell ir.2 "full_text" = VStr s ∧
            contains failure_marker s = false.
Proof.
  apply (cleaner_row_count to_datetime_rfc1123 (mkState [raw_sample] []) 0);
    [reflexivity | sample_run].
Defined.

(** The scenario of the spec: three raw rows, one with the placeholder, two
    cleaned rows. *)
Example cleaner_drops_failed_row :
  nrows raw_sample = 3 ∧ length (failed_rows raw_sample) = 1 ∧
  nrows cleaned_sample = 2.
Proof. by vm_compute. Qed.


Lemma cleaner_columns_witness :
  df_columns cleaned_sample
  = ["entity"; "source_publisher"; "title"; "full_text"; "url";
     "published_time"; "published_date"; "image_url"].
Proof.
  apply (cleaner_columns to_datetime_rfc1123 (mkState [raw_sample] []) 0 raw_sample);
    [| reflexivity | sample_run].
  repeat (apply List.Forall_cons; [vm_compute; lia |]). apply List.Forall_nil.
Defined.

(** C5, as stated, fails: the Cleaner succeeds on the raw sample with a
    second column labelled title, and the table it returns has nine columns,
    title twice. *)
Lemma cleaner_columns_duplicated :
  ∃ t', returns (cleaning_fetched_articles to_datetime_rfc1123 0)
                (mkState [raw_title_twice] []) t' ∧
        df_columns t'
        = ["entity"; "source_publisher"; "title"; "title"; "full_text"; "url";
           "published_time"; "published_date"; "image_url"] ∧
        df_columns t'
        ≠ ["entity"; "source_publisher"; "title"; "full_text"; "url";
           "published_time"; "published_date"; "image_url"].
Proof.
  eexists. split; [| split].
  - eexists _, 4. split; [reflexivity |]. vm_compute. reflexivity.
  - reflexivity.
  - discriminate.
Qed.

Lemma cleaner_published_date_witness :
  returns (cleaning_fetched_articles to_datetime_rfc1123 0)
          (mkState [raw_sample] []) cleaned_sample ∧
  ∀ k ir', df_rows cleaned_sample !! k = Some ir' →
    (∃ ts, cell ir'.2 "published_time" = VTimestamp ts ∧
           cell ir'.2 "published_date" = VDate (ts_date ts)) ∨
    (cell ir'.2 "published_time" = VNaT ∧ cell ir'.2 "published_date" = VNaT).
Proof.
  split; [sample_run |].
  apply (cleaner_published_date to_datetime_rfc1123 (mkState [raw_sample] []) 0
           raw_sample);
    [reflexivity | sample_run].
Defined.

Lemma cleaner_source_publisher_witness :
  returns (cleaning_fetched_articles to_datetime_rfc1123 0)
          (mkState [raw_sample] []) cleaned_sample ∧
  ∀ k ir', df_rows cleaned_sample !! k = Some ir' →
    ∃ ir publisher, survivors raw_sample !! k = Some ir ∧
      publisher_name (cell ir.2 "publisher") = Some publisher ∧
      cell ir'.2 "source_publisher" = VStr publisher.
Proof.
  split; [sample_run |].
  apply (cleaner_source_publisher to_datetime_rfc1123 (mkState [raw_sample] []) 0
           raw_sample);
    [reflexivity | sample_run].
Defined.

(** The scenario of the spec: the publisher structure of Kompas. *)
Example publisher_name_kompas :
  publisher_name kompas = Some "Kompas" ∧
  subscript "title" kompas = Ok (VStr "Kompas").
Proof. by vm_compute. Qed.

Lemma cleaner_all_or_nothing_witness :
  raises (cleaning_fetched_articles to_datetime_rfc1123 0)
         (mkState [raw_without_publisher] []) ∧
  ¬ ∃ t', returns (cleaning_fetched_articles to_datetime_rfc1123 0)
                  (mkState [raw_without_publisher] []) t'.
Proof.
  apply (cleaner_all_or_nothing to_datetime_rfc1123 (mkState [raw_without_publisher] [])
           0 raw_without_publisher);
    [reflexivity |].
  left. eexists.
  split; [apply survivor_spec; split; [left | by vm_compute] | by vm_compute].
Defined.

(** A published date that is no date: [to_datetime] raises, and so does the
    Cleaner. *)
Example cleaner_bad_date :
  (cleaning_fetched_articles to_datetime_rfc1123 0 (mkState [raw_with_bad_date] [])).2
  = Err ValueError.
Proof. by vm_compute. Qed.

Lemma cleaner_input_untouched_witness :
  heap (cleaning_fetched_articles to_datetime_rfc1123 0 (mkState [raw_sample] [])).1 !! 0
  = Some raw_sample ∧
  ∃ ext, heap (cleaning_fetched_articles to_datetime_rfc1123 0
                 (mkState [raw_sample] [])).1
         = heap (mkState [raw_sample] []) ++ ext.
Proof.
  apply (cleaner_input_untouched to_datetime_rfc1123 (mkState [raw_sample] []) 0
           raw_sample).
  reflexivity.
Defined.

Lemma cleaner_on_cleaned_table_witness :
  (∃ σ', cleaning_fetched_articles to_datetime_rfc1123 0 (mkState [cleaned_sample] [])
         = (σ', Err (KeyError ["publisher"]))) ∧
  clean_filter cleaned_sample = Ok cleaned_sample ∧
  clean_text cleaned_sample LF "||" = Ok cleaned_sample ∧
  clean_text cleaned_sample CR "||" = Ok cleaned_sample ∧
  clean_text cleaned_sample backslash "" = Ok cleaned_sample.
Proof.
  apply (cleaner_on_cleaned_table to_datetime_rfc1123 (mkState [cleaned_sample] []) 0
           cleaned_sample);
    [reflexivity |].
  split; [reflexivity |].
  repeat constructor; eexists; (split; [reflexivity | by vm_compute]).
Defined.

(** C6, as stated, fails: the cleaned sample is in the cleaned shape, has no
    row with the failure marker and no line feed, carriage return or
    backslash, and the Cleaner applied to it does not return it; it raises
    [KeyError]. *)
Lemma cleaner_not_idempotent :
  cleaned_shape cleaned_sample ∧
  (cleaning_fetched_articles to_datetime_rfc1123 0 (mkState [cleaned_sample] [])).2
  = Err (KeyError ["publisher"]) ∧
  ¬ returns (cleaning_fetched_articles to_datetime_rfc1123 0)
            (mkState [cleaned_sample] []) cleaned_sample.
Proof.
  split_and!.
  - exact cleaned_sample_shape.
  - by vm_compute.
  - intros (σ' & l & Hrun & _).
    apply (f_equal snd) in Hrun. vm_compute in Hrun. discriminate.
Qed.

(** ** The Fetcher *)

Lemma new_run_first h tr t :
  new t (mkState h tr) = (mkState (h ++ [t]) tr, Ok (length h + 0)).
Proof. unfold new. simpl. by rewrite Nat.add_0_r. Qed.

Lemma foldl_add_label_present cols ks :
  Forall (λ k, k ∈ cols) ks → foldl (λ cols k, add_label k cols) cols ks = cols.
Proof.
  induction 1 as [|k ks Hk _ IH]; [done |]. simpl.
  by rewrite add_label_present.
Qed.

Lemma record_labels it : (record it).*1 = search_columns.
Proof. reflexivity. Qed.

(** The frame of a non-empty list of search results has the five columns of
    a result; the frame of the empty list has none. *)
Lemma pd_DataFrame_columns items :
  items ≠ [] → df_columns (pd_DataFrame (record <$> items)) = search_columns.
Proof.
  destruct items as [|it items]; [done |]. intros _.
  unfold pd_DataFrame. cbn [df_columns]. rewrite fmap_cons, bind_cons, foldl_app.
  rewrite record_labels. cbn [foldl search_columns].
  apply foldl_add_label_present. apply Forall_forall. intros k Hk.
  apply list_elem_of_bind in Hk as (r & Hk & Hr).
  apply list_elem_of_fmap in Hr as (it' & -> & _).
  rewrite record_labels in Hk. exact Hk.
Qed.

Lemma pd_DataFrame_empty : pd_DataFrame [] = mkDF [] [].
Proof. reflexivity. Qed.

Lemma record_url it : cell (list_to_map (record it)) "url" = VStr (item_url it).
Proof. unfold cell, record. by simplify_map_eq. Qed.

(** Writing a list down a column of rows built from the same items. *)
Lemma set_column_imap {A} c (idx : nat → label) (f : A → gmap string value)
    (g : A → value) (l : list A) :
  set_column c (imap (λ i x, (idx i, f x)) l) (g <$> l)
  = imap (λ i x, (idx i, <[c := g x]> (f x))) l.
Proof.
  revert idx. induction l as [|x l IH]; intros idx; [done |].
  rewrite fmap_cons, !imap_cons. cbn [set_column]. f_equal.
  apply (IH (idx ∘ S)).
Qed.

Section FetcherClaims.
Variable today : Date.
Variable minus_days : Date → Z → Date.
Variable get_news : GNews → string → Result (list NewsItem).
Variable download_parse : string → ArticleOutcome.

Abbreviation Fetcher :=
  (fetch_daily_stock_articles today minus_days get_news download_parse).

(** The loop handles every url, whatever the outcome of its download: it
    appends one value to each list per url, and never raises. *)
Lemma fetch_articles_run (us : list string) full_texts image_urls h tr :
  fetch_articles download_parse (VStr <$> us) full_texts image_urls (mkState h tr)
  = (mkState h (tr ++ (us ≫= article_events download_parse)),
     Ok (full_texts ++ ((λ u, (article_cells download_parse u).1) <$> us),
         image_urls ++ ((λ u, (article_cells download_parse u).2) <$> us))).
Proof.
  revert full_texts image_urls tr.
  induction us as [|u us IH]; intros full_texts image_urls tr.
  - simpl. unfold mret, M_ret. by rewrite !app_nil_r.
  - rewrite fmap_cons. cbn [fetch_articles]. rewrite bind_run. unfold lift.
    cbn [Article]. rewrite bind_run.
    rewrite bind_cons, !fmap_cons. unfold article_cells at 1 3, article_events at 1.
    destruct (download_parse u) as [text images|e].
    + unfold mret at 1, M_ret at 1. cbv beta iota.
      rewrite bind_run. unfold emit at 1. cbn [heap trace].
      rewrite IH. cbn [fst snd]. by rewrite <-!(assoc_L (++)).
    + rewrite bind_run. unfold emit at 1. cbn [heap trace].
      unfold mret at 1, M_ret at 1. cbv beta iota.
      rewrite bind_run. unfold emit at 1. cbn [heap trace].
      rewrite IH. cbn [fst snd]. by rewrite <-!(assoc_L (++)).
Qed.

(** A search with results: the Fetcher returns the new frame
    [fetched_table], one row per result in the order of the results, each
    with the full_text and image_url of its article and with the ticker as
    entity; it prints a line per failed article and sleeps after each
    article. *)
Lemma Fetcher_run h tr stock_code n_days max_articles items :
  get_news (google_news today minus_days n_days max_articles) stock_code = Ok items →
  items ≠ [] →
  Fetcher stock_code n_days max_articles (mkState h tr)
  = (mkState (h ++ [fetched_table download_parse stock_code items])
             (tr ++ ((item_url <$> items) ≫= article_events download_parse)),
     Ok (length h + 0)).
Proof.
  intros Hnews Hitems. unfold fetch_daily_stock_articles. cbv zeta.
  cbn [language country max_results]. fold (google_news today minus_days n_days max_articles).
  rewrite bind_run. unfold lift. rewrite Hnews.
  rewrite bind_run, new_run_first. rewrite bind_run.
  erewrite getitem_run by reflexivity.
  rewrite frame_getitem_present
    by (rewrite pd_DataFrame_columns by done; reflexivity).
  assert ((column (pd_DataFrame (record <$> items)) "url").*2
          = VStr <$> (item_url <$> items)) as ->.
  { unfold column, pd_DataFrame. cbn [df_rows].
    rewrite imap_fmap, fmap_imap, fmap_imap, <-list_fmap_compose.
    rewrite <-(imap_const _ items). apply imap_ext. intros i it _. simpl.
    apply record_url. }
  rewrite bind_run, fetch_articles_run. cbv beta iota. rewrite !app_nil_l.
  rewrite <-!list_fmap_compose.
  assert (df_rows (pd_DataFrame (record <$> items))
          = imap (λ i it, (i, list_to_map (record it))) items) as Hrows
    by (unfold pd_DataFrame; cbn [df_rows]; by rewrite imap_fmap).
  rewrite bind_run. erewrite setitem_list_run by reflexivity.
  unfold frame_setitem_list at 1.
  rewrite decide_True by (unfold nrows; by rewrite Hrows, length_fmap, length_imap).
  cbn [insert list_insert].
  rewrite bind_run. erewrite setitem_list_run by reflexivity.
  unfold frame_setitem_list at 1.
  rewrite decide_True
    by (unfold nrows; cbn [df_rows];
        by rewrite set_column_length, Hrows, length_fmap, length_imap).
  cbn [insert list_insert].
  rewrite bind_run. erewrite setitem_scalar_run by reflexivity.
  cbn [insert list_insert]. unfold mret, M_ret. do 3 f_equal.
  unfold frame_setitem_scalar, fetched_table. cbn [df_columns df_rows].
  rewrite pd_DataFrame_columns by done. f_equal.
  rewrite Hrows.
  rewrite (set_column_imap "full_text" id
             (λ it, list_to_map (record it))
             ((λ u, (article_cells download_parse u).1) ∘ item_url)).
  rewrite (set_column_imap "image_url" id
             (λ it, <["full_text" := (article_cells download_parse (item_url it)).1]>
                      (list_to_map (record it)))
             ((λ u, (article_cells download_parse u).2) ∘ item_url)).
  by rewrite fmap_imap.
Qed.

(** C2.  When the download or the parse of the article of a search result
    fails with the detail e, the Fetcher still returns its table, with a row
    for every result; the row of that result has the text "Error when
    downloading and parsing article from ", then the url of the result, then
    ": ", then e, in full_text and in image_url. *)
Theorem fetcher_placeholder σ stock_code n_days max_articles items k it e :
  get_news (google_news today minus_days n_days max_articles) stock_code = Ok items →
  items !! k = Some it →
  download_parse (item_url it) = Failed e →
  ∃ t', returns (Fetcher stock_code n_days max_articles) σ t' ∧
        nrows t' = length items ∧
        ∃ r, df_rows t' !! k = Some (k, r) ∧
             cell r "url" = VStr (item_url it) ∧
             cell r "full_text"
             = VStr ("Error when downloading and parsing article from "
                     ++ item_url it ++ ": " ++ e)%string ∧
             cell r "image_url"
             = VStr ("Error when downloading and parsing article from "
                     ++ item_url it ++ ": " ++ e)%string.
Proof.
  intros Hnews Hk Hfail. destruct σ as [h tr].
  assert (items ≠ []) as Hitems by (intros ->; done).
  exists (fetched_table download_parse stock_code items). split_and!.
  - eexists _, _. split; [by apply Fetcher_run |]. simpl.
    by rewrite heap_lookup_new.
  - unfold nrows, fetched_table. simpl. by rewrite length_imap.
  - exists (fetched_row download_parse stock_code it). split_and!.
    + unfold fetched_table. simpl. by rewrite list_lookup_imap, Hk.
    + unfold cell, fetched_row, record. by simplify_map_eq.
    + unfold cell, fetched_row, article_cells. rewrite Hfail. by simplify_map_eq.
    + unfold cell, fetched_row, article_cells. rewrite Hfail. by simplify_map_eq.
Qed.

(** X1.  A search with results: the Fetcher returns a table with the columns
    of a search result followed by full_text, image_url and entity, and one
    row per result, in order, under the index 0, 1, ...; each row has the
    title and url of its result, the full_text and image_url of its article,
    and the ticker as entity. *)
Theorem fetcher_table σ stock_code n_days max_articles items :
  get_news (google_news today minus_days n_days max_articles) stock_code = Ok items →
  items ≠ [] →
  ∃ t', returns (Fetcher stock_code n_days max_articles) σ t' ∧
        df_columns t' = search_columns ++ ["full_text"; "image_url"; "entity"] ∧
        nrows t' = length items ∧
        ∀ k it, items !! k = Some it →
          ∃ r, df_rows t' !! k = Some (k, r) ∧
               cell r "title" = VStr (item_title it) ∧
               cell r "url" = VStr (item_url it) ∧
               cell r "full_text" = (article_cells download_parse (item_url it)).1 ∧
               cell r "image_url" = (article_cells download_parse (item_url it)).2 ∧
               cell r "entity" = VStr stock_code.
Proof.
  intros Hnews Hitems. destruct σ as [h tr].
  exists (fetched_table download_parse stock_code items). split_and!.
  - eexists _, _. split; [by apply Fetcher_run |]. simpl.
    by rewrite heap_lookup_new.
  - done.
  - unfold nrows, fetched_table. simpl. by rewrite length_imap.
  - intros k it Hk. exists (fetched_row download_parse stock_code it). split_and!.
    + unfold fetched_table. simpl. by rewrite list_lookup_imap, Hk.
    + unfold cell, fetched_row, record. by simplify_map_eq.
    + unfold cell, fetched_row, record. by simplify_map_eq.
    + unfold cell, fetched_row. by simplify_map_eq.
    + unfold cell, fetched_row. by simplify_map_eq.
    + unfold cell, fetched_row. by simplify_map_eq.
Qed.

(** C3, where the code departs from it.  A search that returns no result
    gives a frame without columns; reading its "url" column raises
    [KeyError], and the Fetcher returns no table. *)
Theorem fetcher_empty_search h tr stock_code n_days max_articles :
  get_news (google_news today minus_days n_days max_articles) stock_code = Ok [] →
  Fetcher stock_code n_days max_articles (mkState h tr)
  = (mkState (h ++ [mkDF [] []]) tr, Err (KeyError ["url"])).
Proof.
  intros Hnews. unfold fetch_daily_stock_articles. cbv zeta.
  cbn [language country max_results]. fold (google_news today minus_days n_days max_articles).
  rewrite bind_run. unfold lift. rewrite Hnews.
  rewrite bind_run, new_run_first. rewrite bind_run.
  erewrite getitem_run by reflexivity. reflexivity.
Qed.

End FetcherClaims.

(** ** The Fetcher on the sample search *)

Lemma fetcher_placeholder_witness :
  ∃ t', returns (fetch_daily_stock_articles sample_today sample_minus_days
                   sample_search sample_pages "BBCA" 3 5) (mkState [] []) t' ∧
        nrows t' = length sample_items ∧
        ∃ r, df_rows t' !! 1 = Some (1, r) ∧
             cell r "url" = VStr "http://x" ∧
             cell r "full_text"
             = VStr "Error when downloading and parsing article from http://x: timeout" ∧
             cell r "image_url"
             = VStr "Error when downloading and parsing article from http://x: timeout".
Proof.
  apply (fetcher_placeholder sample_today sample_minus_days sample_search sample_pages
           (mkState [] []) "BBCA" 3 5 sample_items 1
           (sample_item "Saham BBCA" "http://x") "timeout");
    reflexivity.
Defined.

Lemma fetcher_empty_search_witness :
  fetch_daily_stock_articles sample_today sample_minus_days sample_search sample_pages
    "TLKM" 3 5 (mkState [] [])
  = (mkState ([] ++ [mkDF [] []]) [], Err (KeyError ["url"])).
Proof.
  apply (fetcher_empty_search sample_today sample_minus_days sample_search sample_pages
           [] [] "TLKM" 3 5).
  reflexivity.
Defined.

(** The placeholder of a failed article carries the failure marker, so the
    Cleaner drops the row. *)
Lemma placeholder_is_failure url e : is_failure (VStr (placeholder url e)) = true.
Proof.
  reflexivity.
Qed.

(** The pipeline on the sample search: three results, one failed download;
    the Fetcher returns three rows and the Cleaner two. *)
Example pipeline_sample :
  let fetched :=
    fetch_daily_stock_articles sample_today sample_minus_days sample_search
      sample_pages "BBCA" 3 5 (mkState [] []) in
  let cleaned := cleaning_fetched_articles to_datetime_rfc1123 0 fetched.1 in
  fetched.2 = Ok 0 ∧
  nrows <$> heap fetched.1 !! 0 = Some 3 ∧
  cleaned.2 = Ok 4 ∧
  nrows <$> heap cleaned.1 !! 4 = Some 2 ∧
  index <$> heap cleaned.1 !! 4 = Some [0; 2] ∧
  trace cleaned.1
  = [Sleep 10; Print (placeholder "http://x" "timeout"); Sleep 10; Sleep 10].
Proof. by vm_compute. Qed.

(** * Further properties of the code *)

(** ** Effects of a trace *)

Lemma slept_app tr1 tr2 : slept (tr1 ++ tr2) = slept tr1 + slept tr2.
Proof.
  induction tr1 as [|[line|s] tr1 IH]; simpl; [done | done |]. rewrite IH. lia.
Qed.

Lemma printed_app tr1 tr2 : printed (tr1 ++ tr2) = printed tr1 ++ printed tr2.
Proof. unfold printed. apply bind_app. Qed.

Lemma slept_article_events download_parse (items : list NewsItem) :
  slept ((item_url <$> items) ≫= article_events download_parse) = 10 * length items.
Proof.
  induction items as [|it items IH]; [done |].
  rewrite fmap_cons, bind_cons, slept_app, IH. unfold article_events.
  destruct (download_parse (item_url it)); simpl; lia.
Qed.

Lemma printed_article_events download_parse (items : list NewsItem) :
  printed ((item_url <$> items) ≫= article_events download_parse)
  = failure_lines download_parse items.
Proof.
  unfold failure_lines.
  induction items as [|it items IH]; [done |].
  rewrite fmap_cons, !bind_cons, printed_app, IH. unfold article_events.
  by destruct (download_parse (item_url it)).
Qed.

(** ** More on the Fetcher *)

Section FetcherMore.
Variable today : Date.
Variable minus_days : Date → Z → Date.
Variable get_news : GNews → string → Result (list NewsItem).
Variable download_parse : string → ArticleOutcome.

(** A search without results, as a step of the proofs below. *)
Lemma Fetcher_run_empty h tr stock_code n_days max_articles :
  get_news (google_news today minus_days n_days max_articles) stock_code = Ok [] →
  fetch_daily_stock_articles today minus_days get_news download_parse
    stock_code n_days max_articles (mkState h tr)
  = (mkState (h ++ [mkDF [] []]) tr, Err (KeyError ["url"])).
Proof.
  intros Hnews. unfold fetch_daily_stock_articles. cbv zeta.
  cbn [language country max_results].
  fold (google_news today minus_days n_days max_articles).
  rewrite bind_run. unfold lift. rewrite Hnews.
  rewrite bind_run, new_run_first. rewrite bind_run.
  by erewrite getitem_run by reflexivity.
Qed.

(** X4.  A search that fails as a whole: the Fetcher raises the exception of
    the search, before it has made a frame, printed a line or slept. *)
Theorem fetcher_search_failure σ stock_code n_days max_articles e :
  get_news (google_news today minus_days n_days max_articles) stock_code = Err e →
  fetch_daily_stock_articles today minus_days get_news download_parse
    stock_code n_days max_articles σ
  = (σ, Err e).
Proof.
  intros Hnews. unfold fetch_daily_stock_articles. cbv zeta.
  cbn [language country max_results].
  fold (google_news today minus_days n_days max_articles).
  rewrite bind_run. unfold lift. by rewrite Hnews.
Qed.

(** X5.  Whatever the search and the downloads give, the Fetcher leaves the
    frames that exist as they are: the heap it ends with is the heap it
    started from, followed by at most one new frame. *)
Theorem fetcher_keeps_heap σ stock_code n_days max_articles :
  ∃ ext,
    heap (fetch_daily_stock_articles today minus_days get_news download_parse
            stock_code n_days max_articles σ).1
    = heap σ ++ ext ∧
    (length ext ≤ 1)%nat.
Proof.
  destruct σ as [h tr].
  destruct (get_news (google_news today minus_days n_days max_articles) stock_code)
    as [[|it items]|e] eqn:Hnews.
  - rewrite (Fetcher_run_empty _ _ _ _ _ Hnews). eexists [_].
    split; [reflexivity | simpl; lia].
  - rewrite (Fetcher_run _ _ _ _ _ _ _ _ _ _ Hnews) by done. eexists [_].
    split; [reflexivity | simpl; lia].
  - assert (fetch_daily_stock_articles today minus_days get_news download_parse
              stock_code n_days max_articles (mkState h tr)
            = (mkState h tr, Err e)) as ->.
    { unfold fetch_daily_stock_articles. cbv zeta. cbn [language country max_results].
      fold (google_news today minus_days n_days max_articles).
      rewrite bind_run. unfold lift. by rewrite Hnews. }
    exists []. simpl. split; [by rewrite app_nil_r | lia].
Qed.

(** X3.  For a search with n results the Fetcher sleeps 10 seconds after each
    article, 10 n seconds in all, and it prints the placeholder of each
    failed article, in the order of the results, and nothing else. *)
Theorem fetcher_effects σ stock_code n_days max_articles items :
  get_news (google_news today minus_days n_days max_articles) stock_code = Ok items →
  slept (trace (fetch_daily_stock_articles today minus_days get_news download_parse
                  stock_code n_days max_articles σ).1)
  = slept (trace σ) + 10 * length items ∧
  printed (trace (fetch_daily_stock_articles today minus_days get_news download_parse
                    stock_code n_days max_articles σ).1)
  = printed (trace σ) ++ failure_lines download_parse items.
Proof.
  intros Hnews. destruct σ as [h tr]. destruct items as [|it items].
  - rewrite (Fetcher_run_empty _ _ _ _ _ Hnews). simpl.
    split; [lia | by rewrite app_nil_r].
  - rewrite (Fetcher_run _ _ _ _ _ _ _ _ _ _ Hnews) by done. cbn [fst trace].
    by rewrite slept_app, printed_app, slept_article_events, printed_article_events.
Qed.

(** X2.  For a search result whose article is downloaded and parsed, the row
    of the result has the text of the article in full_text, and in image_url
    the first image of the article, or None when the article has no image. *)
Theorem fetcher_parsed_article σ stock_code n_days max_articles items k it text images :
  get_news (google_news today minus_days n_days max_articles) stock_code = Ok items →
  items !! k = Some it →
  download_parse (item_url it) = Parsed text images →
  ∃ t', returns (fetch_daily_stock_articles today minus_days get_news download_parse
                   stock_code n_days max_articles) σ t' ∧
        ∃ r, df_rows t' !! k = Some (k, r) ∧
             cell r "full_text" = VStr text ∧
             cell r "image_url" = match images with
                                  | image :: _ => VStr image
                                  | [] => VNone
                                  end.
Proof.
  intros Hnews Hk Hparsed. destruct σ as [h tr].
  assert (items ≠ []) as Hitems by (intros ->; done).
  exists (fetched_table download_parse stock_code items). split.
  - eexists _, _. split; [by apply Fetcher_run |]. simpl.
    by rewrite heap_lookup_new.
  - exists (fetched_row download_parse stock_code it). split_and!.
    + unfold fetched_table. simpl. by rewrite list_lookup_imap, Hk.
    + unfold cell, fetched_row, article_cells. rewrite Hparsed. by simplify_map_eq.
    + unfold cell, fetched_row, article_cells. rewrite Hparsed. by simplify_map_eq.
Qed.

End FetcherMore.

(** ** More on the Cleaner *)

Section CleanerMore.
Variable to_datetime : Series → Result Series.
Implicit Types (t : DataFrame) (σ : state) (df : loc).

(** The labels a raw table has when the Cleaner has a result. *)
Lemma cleaned_Ok_labels t t' :
  cleaned to_datetime t = Ok t' →
  Forall (λ c, c ∈ df_columns t) required_columns ∧
  occurrences "published date" (df_columns t)
    + occurrences "published_time" (df_columns t) = 1.
Proof.
  intros Hc.
  pose proof (cleaned_Ok_inv to_datetime t t' Hc)
    as (_ & _ & Hft & _ & _ & _ & _ & _ & _ & _ & _ & _ & Hpresent & _).
  revert Hc. unfold cleaned.
  intros (t1 & (_ & _ & ->)%clean_filter_Ok & H)%Result_bind_inv.
  apply Result_bind_inv in H as (t2 & H2 & H).
  apply Result_bind_inv in H as (t3 & H3 & H).
  apply Result_bind_inv in H as (t4 & H4 & H).
  destruct (clean_texts_frame _ _ _ _ H2 H3 H4) as (C4 & _). simpl in C4.
  clear H2 H3 H4 t2 t3.
  set (t5 := frame_rename t4 "published date" "published_time") in *.
  assert (df_columns t5
          = (λ c, if decide (c = "published date") then "published_time" else c)
              <$> df_columns t) as C5
    by by (unfold t5; rewrite frame_rename_columns, C4).
  clearbody t5.
  apply Result_bind_inv in H as (t6 & H6 & H). unfold clean_publisher in H6.
  apply Result_bind_inv in H6 as (pub & [Hpub _]%frame_getitem_Ok & H6).
  apply Result_bind_inv in H6 as (names & _ & [= <-]).
  apply Result_bind_inv in H as (t7 & H7 & _). unfold clean_time in H7.
  apply Result_bind_inv in H7 as (pt & [Hpt _]%frame_getitem_Ok & _).
  simpl in Hpt. rewrite occurrences_add_label_other, C5 in Hpt by done.
  rewrite occurrences_renamed_new in Hpt by done.
  rewrite C5, occurrences_renamed_other in Hpub by done.
  split; [| done].
  assert (∀ c, c ≠ "published_time" → c ≠ "published_date" → c ≠ "source_publisher" →
    c ∈ working_columns t → c ∈ df_columns t) as Hback.
  { intros c ? ? ?. unfold working_columns. rewrite !elem_of_add_label.
    intros [?|[?|[?|Hin]]]; try done.
    apply list_elem_of_fmap in Hin as (x & -> & Hx). by case_decide. }
  unfold cleaned_columns in Hpresent. rewrite !Forall_cons in Hpresent.
  destruct Hpresent as (He & _ & Hti & _ & Hu & _ & _ & Hi & _).
  unfold required_columns. rewrite !Forall_cons. split_and!; try done.
  - apply occurrences_pos. lia.
  - apply occurrences_pos. lia.
  - by apply Hback.
  - by apply Hback.
  - by apply Hback.
  - by apply Hback.
Qed.

(** X6.  The Cleaner returns a table whenever the raw table has one full_text
    column of texts, one publisher column with a title in every surviving
    row, the published time under one label, parsed by [to_datetime] into as
    many datetime values, and the entity, title, url and image_url columns. *)
Theorem cleaner_succeeds σ df t parsed :
  heap σ !! df = Some t →
  occurrences "full_text" (df_columns t) = 1 →
  Forall (λ iv, is_str iv.2) (column t "full_text") →
  occurrences "publisher" (df_columns t) = 1 →
  Forall (λ ir, is_Some (publisher_name (cell ir.2 "publisher"))) (survivors t) →
  occurrences "published date" (df_columns t)
    + occurrences "published_time" (df_columns t) = 1 →
  to_datetime (rows_column (survivors t) (published_label t)) = Ok parsed →
  parsed.*1 = (survivors t).*1 →
  Forall datetime_like parsed.*2 →
  Forall (λ c, c ∈ df_columns t) ["entity"; "title"; "url"; "image_url"] →
  ∃ t', returns (cleaning_fetched_articles to_datetime df) σ t'.
Proof.
  intros Hdf Hft Hstr Hpub Hnames Hpt Hparsed Hindex Hdt Hcarried.
  destruct (cleaned_total to_datetime t parsed) as [t' Ht']; try done.
  exists t'. by apply (Cleaner_returns to_datetime _ _ _ _ Hdf).
Qed.

(** X7.  The entity, title, url and image_url of a cleaned row are those of
    the raw row it comes from, unchanged. *)
Theorem cleaner_carried_columns σ df t t' :
  heap σ !! df = Some t →
  returns (cleaning_fetched_articles to_datetime df) σ t' →
  ∀ k ir', df_rows t' !! k = Some ir' →
    ∃ ir, survivors t !! k = Some ir ∧
          cell ir'.2 "entity" = cell ir.2 "entity" ∧
          cell ir'.2 "title" = cell ir.2 "title" ∧
          cell ir'.2 "url" = cell ir.2 "url" ∧
          cell ir'.2 "image_url" = cell ir.2 "image_url".
Proof.
  intros Hdf Hret. apply (Cleaner_returns to_datetime _ _ _ _ Hdf) in Hret.
  apply cleaned_Ok_inv in Hret
    as (names & parsed & _ & _ & _ & _ & _ & _ & _ & _ & Hcarried & _).
  intros k ir' Hk.
  assert (∀ c, c ∈ ["entity"; "title"; "url"; "image_url"] →
    ∃ ir, survivors t !! k = Some ir ∧ cell ir'.2 c = cell ir.2 c) as Hone.
  { intros c Hc. pose proof (column_lookup _ c _ _ Hk) as Hcol.
    rewrite (Hcarried c Hc) in Hcol.
    apply rows_column_lookup in Hcol as (ir & Hs & [= _ Hcell]). eauto. }
  destruct (Hone "entity") as (ir & Hs & He); [set_solver |].
  destruct (Hone "title") as (ir1 & Hs1 & Hti); [set_solver |].
  destruct (Hone "url") as (ir2 & Hs2 & Hu); [set_solver |].
  destruct (Hone "image_url") as (ir3 & Hs3 & Hi); [set_solver |].
  assert (ir1 = ir) as -> by congruence.
  assert (ir2 = ir) as -> by congruence.
  assert (ir3 = ir) as -> by congruence.
  eauto 10.
Qed.

(** X8.  A raw table that lacks one of the columns full_text, publisher,
    entity, title, url, image_url, or that has neither a "published date" nor
    a "published_time" column, makes the Cleaner raise; no table is
    returned. *)
Theorem cleaner_missing_column σ df t :
  heap σ !! df = Some t →
  ((∃ c, c ∈ required_columns ∧ c ∉ df_columns t) ∨
   (¬ "published date" ∈ df_columns t ∧ ¬ "published_time" ∈ df_columns t)) →
  raises (cleaning_fetched_articles to_datetime df) σ.
Proof.
  intros Hdf Hmiss. apply (Cleaner_raises to_datetime _ _ _ Hdf).
  destruct (cleaned to_datetime t) as [t'|e] eqn:Hc; [| done].
  apply cleaned_Ok_labels in Hc as [Hreq Hpt].
  destruct Hmiss as [(c & Hc & Hnin) | [Hold Hnew]].
  - rewrite Forall_forall in Hreq. by apply Hreq in Hc.
  - apply occurrences_zero in Hold, Hnew. lia.
Qed.

(** X9.  A raw table in which the full_text of some row, with or without the
    marker elsewhere, is not a text (None, nan) makes the Cleaner raise. *)
Theorem cleaner_non_text σ df t ir :
  heap σ !! df = Some t →
  ir ∈ df_rows t →
  ¬ is_str (cell ir.2 "full_text") →
  raises (cleaning_fetched_articles to_datetime df) σ.
Proof.
  intros Hdf Hin Hnot. apply (Cleaner_raises to_datetime _ _ _ Hdf).
  destruct (cleaned to_datetime t) as [t'|e] eqn:Hc; [| done].
  apply cleaned_Ok_inv in Hc as (names & parsed & _ & Hstr & _).
  rewrite Forall_forall in Hstr. destruct Hnot.
  apply (Hstr (ir.1, cell ir.2 "full_text")). apply list_elem_of_fmap. eauto.
Qed.

(** X10.  When every row of the raw table carries the failure marker (every
    download failed), the Cleaner does not raise: it returns a table without
    rows, provided [to_datetime] accepts the empty Series. *)
Theorem cleaner_all_failed σ df t :
  heap σ !! df = Some t →
  Forall (λ c, occurrences c (df_columns t) = 1) ["full_text"; "publisher"] →
  Forall (λ c, c ∈ df_columns t) ["entity"; "title"; "url"; "image_url"] →
  occurrences "published date" (df_columns t)
    + occurrences "published_time" (df_columns t) = 1 →
  Forall (λ ir, is_failure (cell ir.2 "full_text") = true) (df_rows t) →
  to_datetime [] = Ok [] →
  ∃ t', returns (cleaning_fetched_articles to_datetime df) σ t' ∧ df_rows t' = [].
Proof.
  intros Hdf Hone Hcarried Hpt Hfailed Hempty.
  rewrite !Forall_cons in Hone. destruct Hone as (Hft & Hpub & _).
  assert (survivors t = []) as Hnone.
  { unfold survivors. induction Hfailed as [|ir rows Hir _ IH]; [done |].
    rewrite filter_cons, decide_False; [done |]. by rewrite Hir. }
  destruct (cleaned_total to_datetime t []) as [t' Ht']; try done.
  - unfold column. apply Forall_fmap. eapply Forall_impl; [exact Hfailed |].
    intros [i r]. simpl. destruct (cell r "full_text"); try done. by eexists.
  - by rewrite Hnone.
  - by rewrite Hnone.
  - by rewrite Hnone.
  - exists t'. split; [by apply (Cleaner_returns to_datetime _ _ _ _ Hdf) |].
    apply cleaned_Ok_inv in Ht' as (names & parsed & _ & _ & Hindex & _).
    rewrite Hnone in Hindex. by apply fmap_nil_inv in Hindex.
Qed.

(** X11.  The Cleaner prints nothing and does not sleep: whatever it is
    given, and whether it returns or raises, the trace is as it was. *)
Theorem cleaner_silent σ df :
  trace (cleaning_fetched_articles to_datetime df σ).1 = trace σ.
Proof.
  destruct σ as [h tr]. destruct (h !! df) as [t|] eqn:Hdf.
  - destruct (cleaning_fetched_articles_run to_datetime h tr df t Hdf) as [ext Hrun].
    destruct (cleaned to_datetime t); [destruct Hrun as (l & -> & _) | rewrite Hrun];
      done.
  - unfold cleaning_fetched_articles. rewrite bind_run. unfold copy.
    rewrite bind_run. unfold deref. simpl. by rewrite Hdf.
Qed.

(** X12.  The three substitutions of the Cleaner are idempotent: applied to a
    text they have already been applied to, they change nothing. *)
Theorem text_cleaning_idempotent s :
  re_sub backslash "" (re_sub CR "||" (re_sub LF "||"
    (re_sub backslash "" (re_sub CR "||" (re_sub LF "||" s)))))
  = re_sub backslash "" (re_sub CR "||" (re_sub LF "||" s)).
Proof.
  rewrite (re_sub_normalized s), re_sub_normalized.
  apply normalized_id; apply normalized_clean; auto.
Qed.

End CleanerMore.

(** ** The Fetcher and the Cleaner together, and the script *)

Lemma filter_imap_snd {A B} (P : B → Prop) `{∀ y, Decision (P y)}
    (idx : nat → label) (f : A → B) (l : list A) :
  (filter (λ ir, P ir.2) (imap (λ i x, (idx i, f x)) l)).*2
  = f <$> filter (λ x, P (f x)) l.
Proof.
  revert idx. induction l as [|x l IH]; intros idx; [done |].
  rewrite imap_cons, !filter_cons. simpl.
  case_decide; [rewrite !fmap_cons |]; by rewrite <-(IH (idx ∘ S)).
Qed.

Section Pipeline.
Variable today : Date.
Variable minus_days : Date → Z → Date.
Variable get_news : GNews → string → Result (list NewsItem).
Variable download_parse : string → ArticleOutcome.
Variable to_datetime : Series → Result Series.
Variable to_string : DataFrame → string.

(** The full_text the Fetcher writes is a text; it carries the failure
    marker exactly when the article is not kept. *)
Lemma fetched_row_text stock_code it :
  ∃ s, cell (fetched_row download_parse stock_code it) "full_text" = VStr s.
Proof.
  unfold cell, fetched_row, article_cells.
  destruct (download_parse (item_url it)); simplify_map_eq; eauto.
Qed.

Lemma fetched_row_failure stock_code it :
  is_failure (cell (fetched_row download_parse stock_code it) "full_text")
  = negb (article_kept download_parse it).
Proof.
  unfold cell, fetched_row, article_cells, article_kept.
  destruct (download_parse (item_url it)); simplify_map_eq.
  - by rewrite negb_involutive.
  - reflexivity.
Qed.

(** The rows of the fetched table that the Cleaner keeps are the rows of the
    articles that were parsed into a text without the marker. *)
Lemma survivors_fetched stock_code items :
  (survivors (fetched_table download_parse stock_code items)).*2
  = fetched_row download_parse stock_code
      <$> filter (λ it, article_kept download_parse it = true) items.
Proof.
  unfold survivors, fetched_table. cbn [df_rows].
  etrans; [exact (filter_imap_snd (λ r, is_failure (cell r "full_text") = false)
                    (λ i, i) (fetched_row download_parse stock_code) items) |].
  f_equal. apply list_filter_iff. intros it. rewrite fetched_row_failure.
  by destruct (article_kept download_parse it).
Qed.

(** The Cleaner runs on the frame the Fetcher has just made. *)
Lemma fetch_and_clean_run h tr stock_code n_days max_articles items :
  get_news (google_news today minus_days n_days max_articles) stock_code = Ok items →
  items ≠ [] →
  fetch_and_clean today minus_days get_news download_parse to_datetime
    stock_code n_days max_articles (mkState h tr)
  = cleaning_fetched_articles to_datetime (length h + 0)
      (mkState (h ++ [fetched_table download_parse stock_code items])
               (tr ++ ((item_url <$> items) ≫= article_events download_parse))).
Proof.
  intros Hnews Hitems. unfold fetch_and_clean.
  by rewrite bind_run, (Fetcher_run _ _ _ _ _ _ _ _ _ _ Hnews Hitems).
Qed.

(** X13.  The table that fetching and then cleaning returns has one row for
    each search result whose article was downloaded and parsed into a text
    that does not contain the failure marker, and no other row: failed
    articles are dropped, and so is an article whose own text contains the
    marker sentence. *)
Theorem fetch_and_clean_row_count σ stock_code n_days max_articles items t' :
  get_news (google_news today minus_days n_days max_articles) stock_code = Ok items →
  returns (fetch_and_clean today minus_days get_news download_parse to_datetime
             stock_code n_days max_articles) σ t' →
  nrows t' = length (filter (λ it, article_kept download_parse it = true) items).
Proof.
  intros Hnews Hret. destruct σ as [h tr]. destruct items as [|it items].
  - destruct Hret as (σ' & l & Hrun & _). unfold fetch_and_clean in Hrun.
    rewrite bind_run, (Fetcher_run_empty _ _ _ _ _ _ _ _ _ Hnews) in Hrun.
    discriminate.
  - unfold returns in Hret.
    rewrite (fetch_and_clean_run _ _ _ _ _ _ Hnews) in Hret by done.
    apply (Cleaner_returns to_datetime _ _
             (fetched_table download_parse stock_code (it :: items))) in Hret;
      [| simpl; by rewrite heap_lookup_new].
    apply cleaned_Ok_inv in Hret as (names & parsed & _ & _ & Hindex & _).
    unfold nrows. rewrite <-(length_fmap fst). fold (index t'). rewrite Hindex.
    rewrite length_fmap, <-(length_fmap snd), survivors_fetched.
    by rewrite length_fmap.
Qed.

(** The fetched table is a raw table the Cleaner accepts, as far as the
    Fetcher is concerned. *)
Lemma cleaned_fetched_total stock_code items parsed :
  items ≠ [] →
  to_datetime (rows_column (survivors (fetched_table download_parse stock_code items))
                 "published date") = Ok parsed →
  parsed.*1 = (survivors (fetched_table download_parse stock_code items)).*1 →
  Forall datetime_like parsed.*2 →
  ∃ t', cleaned to_datetime (fetched_table download_parse stock_code items) = Ok t'.
Proof.
  intros Hitems Hparsed Hindex Hdt.
  apply (cleaned_total to_datetime _ parsed); try done.
  - unfold column, fetched_table. cbn [df_rows]. apply Forall_fmap, Forall_forall.
    intros [i r] (k & it & [= -> ->] & _)%elem_of_lookup_imap_1. simpl.
    apply fetched_row_text.
  - apply Forall_forall. intros [i r] [Hin _]%survivor_spec.
    unfold fetched_table in Hin. cbn [df_rows] in Hin.
    apply elem_of_lookup_imap_1 in Hin as (k & it & [= -> ->] & _). simpl.
    unfold cell, fetched_row, record, publisher_name. by simplify_map_eq.
  - unfold fetched_table, search_columns. cbn [df_columns].
    repeat constructor; set_solver.
Qed.

(** X14.  When the search has results and [to_datetime] parses the published
    dates of the articles that are kept, fetching and then cleaning returns a
    table: nothing else in what the Fetcher produces can make the Cleaner
    raise. *)
Theorem fetch_and_clean_returns σ stock_code n_days max_articles items parsed :
  get_news (google_news today minus_days n_days max_articles) stock_code = Ok items →
  items ≠ [] →
  to_datetime (rows_column (survivors (fetched_table download_parse stock_code items))
                 "published date") = Ok parsed →
  parsed.*1 = (survivors (fetched_table download_parse stock_code items)).*1 →
  Forall datetime_like parsed.*2 →
  ∃ t', returns (fetch_and_clean today minus_days get_news download_parse to_datetime
                   stock_code n_days max_articles) σ t'.
Proof.
  intros Hnews Hitems Hparsed Hindex Hdt. destruct σ as [h tr].
  destruct (cleaned_fetched_total stock_code items parsed) as [t' Ht']; try done.
  exists t'. unfold returns.
  rewrite (fetch_and_clean_run _ _ _ _ _ _ Hnews) by done.
  apply (Cleaner_returns to_datetime _ _
           (fetched_table download_parse stock_code items));
    [simpl; by rewrite heap_lookup_new | done].
Qed.

(** X15.  The script, when the search for BBCA has results and the Cleaner
    accepts the fetched table: it ends normally, having printed the
    placeholder of each failed article and then, once, the cleaned table, and
    having slept 10 seconds per result. *)
Theorem script_prints_table σ items t' :
  get_news (google_news today minus_days 3 5) "BBCA" = Ok items →
  items ≠ [] →
  cleaned to_datetime (fetched_table download_parse "BBCA" items) = Ok t' →
  ∃ σ', script today minus_days get_news download_parse to_datetime to_string σ
        = (σ', Ok tt) ∧
        printed (trace σ')
        = printed (trace σ) ++ failure_lines download_parse items ++ [to_string t'] ∧
        slept (trace σ') = slept (trace σ) + 10 * length items.
Proof.
  intros Hnews Hitems Hclean. destruct σ as [h tr]. unfold script.
  rewrite bind_run, (Fetcher_run _ _ _ _ _ _ _ _ _ _ Hnews Hitems).
  rewrite bind_run.
  destruct (cleaning_fetched_articles_run to_datetime
              (h ++ [fetched_table download_parse "BBCA" items])
              (tr ++ ((item_url <$> items) ≫= article_events download_parse))
              (length h + 0) (fetched_table download_parse "BBCA" items))
    as [ext Hrun]; [by rewrite heap_lookup_new |].
  rewrite Hclean in Hrun. destruct Hrun as (l & -> & Hl).
  rewrite bind_run. unfold deref. cbn [heap]. rewrite Hl.
  unfold emit. cbn [heap trace]. eexists. split; [reflexivity |].
  cbn [trace].
  rewrite !printed_app, !slept_app, slept_article_events, printed_article_events.
  simpl. split; [by rewrite <-(assoc_L (++)) | lia].
Qed.

(** X16.  The script, when the search for BBCA has no result: it stops with
    the [KeyError] of the Fetcher, having printed nothing. *)
Theorem script_empty_search σ :
  get_news (google_news today minus_days 3 5) "BBCA" = Ok [] →
  script today minus_days get_news download_parse to_datetime to_string σ
  = (mkState (heap σ ++ [mkDF [] []]) (trace σ), Err (KeyError ["url"])).
Proof.
  intros Hnews. destruct σ as [h tr]. unfold script.
  by rewrite bind_run, (Fetcher_run_empty _ _ _ _ _ _ _ _ _ Hnews).
Qed.

End Pipeline.

(** ** The further properties on the samples *)

Lemma fetcher_table_witness :
  ∃ t', returns (fetch_daily_stock_articles sample_today sample_minus_days
                   sample_search sample_pages "BBCA" 3 5) (mkState [] []) t' ∧
        df_columns t' = search_columns ++ ["full_text"; "image_url"; "entity"] ∧
        nrows t' = length sample_items ∧
        ∀ k it, sample_items !! k = Some it →
          ∃ r, df_rows t' !! k = Some (k, r) ∧
               cell r "title" = VStr (item_title it) ∧
               cell r "url" = VStr (item_url it) ∧
               cell r "full_text" = (article_cells sample_pages (item_url it)).1 ∧
               cell r "image_url" = (article_cells sample_pages (item_url it)).2 ∧
               cell r "entity" = VStr "BBCA".
Proof.
  apply (fetcher_table sample_today sample_minus_days sample_search sample_pages
           (mkState [] []) "BBCA" 3 5 sample_items);
    [reflexivity | done].
Defined.

Lemma fetcher_parsed_article_witness :
  ∃ t', returns (fetch_daily_stock_articles sample_today sample_minus_days
                   sample_search sample_pages "BBCA" 3 5) (mkState [] []) t' ∧
        ∃ r, df_rows t' !! 0 = Some (0, r) ∧
             cell r "full_text" = VStr "text of http://a" ∧
             cell r "image_url" = VStr "http://a/1.png".
Proof.
  apply (fetcher_parsed_article sample_today sample_minus_days sample_search
           sample_pages (mkState [] []) "BBCA" 3 5 sample_items 0
           (sample_item "Laba BBCA naik" "http://a")
           "text of http://a" ["http://a/1.png"]);
    reflexivity.
Defined.

Lemma fetcher_effects_witness :
  slept (trace (fetch_daily_stock_articles sample_today sample_minus_days
                  sample_search sample_pages "BBCA" 3 5 (mkState [] [])).1)
  = slept (trace (mkState [] [])) + 10 * length sample_items ∧
  printed (trace (fetch_daily_stock_articles sample_today sample_minus_days
                    sample_search sample_pages "BBCA" 3 5 (mkState [] [])).1)
  = printed (trace (mkState [] [])) ++ failure_lines sample_pages sample_items.
Proof.
  apply (fetcher_effects sample_today sample_minus_days sample_search sample_pages
           (mkState [] []) "BBCA" 3 5 sample_items).
  reflexivity.
Defined.

Lemma fetcher_search_failure_witness :
  fetch_daily_stock_articles sample_today sample_minus_days failing_search
    sample_pages "BBCA" 3 5 (mkState [raw_sample] [])
  = (mkState [raw_sample] [], Err (LibraryError "search backend unreachable")).
Proof.
  apply (fetcher_search_failure sample_today sample_minus_days failing_search
           sample_pages (mkState [raw_sample] []) "BBCA" 3 5).
  reflexivity.
Defined.

Lemma cleaner_succeeds_witness :
  ∃ t', returns (cleaning_fetched_articles to_datetime_rfc1123 0)
                (mkState [raw_sample] []) t'.
Proof.
  apply (cleaner_succeeds to_datetime_rfc1123 (mkState [raw_sample] []) 0 raw_sample
           sample_parsed);
    try reflexivity.
  - repeat constructor; by eexists.
  - repeat constructor; by eexists.
  - repeat constructor.
  - apply (bool_decide_unpack _). by vm_compute.
Defined.

Lemma cleaner_carried_columns_witness :
  returns (cleaning_fetched_articles to_datetime_rfc1123 0)
          (mkState [raw_sample] []) cleaned_sample ∧
  ∀ k ir', df_rows cleaned_sample !! k = Some ir' →
    ∃ ir, survivors raw_sample !! k = Some ir ∧
          cell ir'.2 "entity" = cell ir.2 "entity" ∧
          cell ir'.2 "title" = cell ir.2 "title" ∧
          cell ir'.2 "url" = cell ir.2 "url" ∧
          cell ir'.2 "image_url" = cell ir.2 "image_url".
Proof.
  split; [sample_run |].
  apply (cleaner_carried_columns to_datetime_rfc1123 (mkState [raw_sample] []) 0
           raw_sample);
    [reflexivity | sample_run].
Defined.

Lemma cleaner_missing_column_witness :
  raises (cleaning_fetched_articles to_datetime_rfc1123 0)
         (mkState [raw_without_url] []).
Proof.
  apply (cleaner_missing_column to_datetime_rfc1123 (mkState [raw_without_url] []) 0
           raw_without_url);
    [reflexivity |].
  left. exists "url". split; apply (bool_decide_unpack _); by vm_compute.
Defined.

Lemma cleaner_non_text_witness :
  raises (cleaning_fetched_articles to_datetime_rfc1123 0)
         (mkState [raw_with_none_text] []).
Proof.
  apply (cleaner_non_text to_datetime_rfc1123 (mkState [raw_with_none_text] []) 0
           raw_with_none_text
           (1, <["full_text" := VNone]> (raw_row "Saham BBCA" "http://x" "" VNone)));
    [reflexivity | right; left |].
  intros [s Hs]. vm_compute in Hs. discriminate.
Defined.

Lemma cleaner_all_failed_witness :
  ∃ t', returns (cleaning_fetched_articles to_datetime_rfc1123 0)
                (mkState [raw_all_failed] []) t' ∧
        df_rows t' = [].
Proof.
  apply (cleaner_all_failed to_datetime_rfc1123 (mkState [raw_all_failed] []) 0
           raw_all_failed);
    try reflexivity.
  - repeat constructor.
  - repeat constructor; apply (bool_decide_unpack _); by vm_compute.
  - repeat constructor.
Defined.

Lemma fetch_and_clean_row_count_witness :
  ∃ t', returns (fetch_and_clean sample_today sample_minus_days sample_search
                   sample_pages to_datetime_rfc1123 "BBCA" 3 5) (mkState [] []) t' ∧
        nrows t'
        = length (filter (λ it, article_kept sample_pages it = true) sample_items).
Proof.
  set (run := fetch_and_clean sample_today sample_minus_days sample_search
                sample_pages to_datetime_rfc1123 "BBCA" 3 5 (mkState [] [])).
  assert (returns (fetch_and_clean sample_today sample_minus_days sample_search
                     sample_pages to_datetime_rfc1123 "BBCA" 3 5) (mkState [] [])
                  (default (mkDF [] []) (heap run.1 !! 4))) as Hret.
  { exists run.1, 4. split; vm_compute; reflexivity. }
  eexists. split; [exact Hret |].
  apply (fetch_and_clean_row_count sample_today sample_minus_days sample_search
           sample_pages to_datetime_rfc1123 (mkState [] []) "BBCA" 3 5 sample_items);
    [reflexivity | exact Hret].
Defined.

Lemma fetch_and_clean_returns_witness :
  ∃ t', returns (fetch_and_clean sample_today sample_minus_days sample_search
                   sample_pages to_datetime_rfc1123 "BBCA" 3 5) (mkState [] []) t'.
Proof.
  apply (fetch_and_clean_returns sample_today sample_minus_days sample_search
           sample_pages to_datetime_rfc1123 (mkState [] []) "BBCA" 3 5
           sample_items sample_parsed);
    [reflexivity | done | by vm_compute | by vm_compute | repeat constructor].
Defined.

Lemma script_prints_table_witness :
  ∃ t' σ',
    cleaned to_datetime_rfc1123 (fetched_table sample_pages "BBCA" sample_items)
    = Ok t' ∧
    script sample_today sample_minus_days sample_search sample_pages
      to_datetime_rfc1123 sample_to_string (mkState [] [])
    = (σ', Ok tt) ∧
    printed (trace σ')
    = printed (trace (mkState [] [])) ++ failure_lines sample_pages sample_items
        ++ [sample_to_string t'] ∧
    slept (trace σ') = slept (trace (mkState [] [])) + 10 * length sample_items.
Proof.
  set (t' := match cleaned to_datetime_rfc1123
                     (fetched_table sample_pages "BBCA" sample_items) with
             | Ok t => t
             | Err _ => mkDF [] []
             end).
  assert (cleaned to_datetime_rfc1123 (fetched_table sample_pages "BBCA" sample_items)
          = Ok t') as Hclean by (vm_compute; reflexivity).
  destruct (script_prints_table sample_today sample_minus_days sample_search
              sample_pages to_datetime_rfc1123 sample_to_string (mkState [] [])
              sample_items t') as (σ' & Hrun & Hprinted & Hslept);
    [reflexivity | done | exact Hclean |].
  exists t', σ'. auto.
Defined.

Lemma script_empty_search_witness :
  script sample_today sample_minus_days empty_search sample_pages
    to_datetime_rfc1123 sample_to_string (mkState [] [])
  = (mkState (heap (mkState [] []) ++ [mkDF [] []]) (trace (mkState [] [])),
     Err (KeyError ["url"])).
Proof.
  apply (script_empty_search sample_today sample_minus_days empty_search sample_pages
           to_datetime_rfc1123 sample_to_string (mkState [] [])).
  reflexivity.
Defined.
